(** * Bid price scoring: the [FractionCalculator] of [fraction_calculator.py]

    A shallow embedding of the scoring pipeline and of [calc], with the
    properties of its specification stated and proved over it.

    How Python's numbers are represented:

    - [decimal.Decimal] values are exact rationals ([Q]) together with the
      two special values the library has, [Infinity] and [NaN].  The context
      precision (28 significant digits) is not represented: arithmetic on
      finite values is exact and [quantize] always fits.
    - A price handed to [calc] is a Python object: an [int], a [float] or
      something else.  A [float] is an IEEE 754 binary64 number
      ([spec_float] at precision 53), because [sum(prices)] adds the prices
      as floats before anything is converted to [Decimal].
    - [Decimal(str(x))] of a float is the shortest decimal numeral that reads
      back as [x], which is what CPython's [repr] prints.
    - A float that the code obtains as [float(d)] from a [Decimal] [d] and
      later reads back with [Decimal(str(.))] is represented by [d] itself. *)

From Stdlib Require Import ZArith QArith Qabs Qround Qminmax List String Bool Lia Lqa.
From Stdlib Require Import Floats.SpecFloat.
From Stdlib Require Import Sorting.Sorted Sorting.Permutation.
From Stdlib Require Import DecimalString.
Import ListNotations.

Local Open Scope Z_scope.

(** ** Exceptions and the error monad *)

Inductive exn : Type :=
| ValueError (msg : string)      (* builtins.ValueError, with its message *)
| InvalidOperation               (* decimal.InvalidOperation *)
| DivisionByZero                 (* decimal.DivisionByZero *)
| OverflowError                  (* builtins.OverflowError *)
| TypeError.                     (* builtins.TypeError *)

Definition result (A : Type) : Type := (exn + A)%type.

Definition ret {A : Type} (a : A) : result A := inr a.
Definition raise {A : Type} (e : exn) : result A := inl e.
Definition bind {A B : Type} (m : result A) (k : A -> result B) : result B :=
  match m with
  | inl e => inl e
  | inr a => k a
  end.

Notation "x <- m ;; k" := (bind m (fun x => k))
  (at level 61, m at next level, right associativity).

(** ** IEEE 754 binary64, the Python [float] *)

Module Float.

Definition prec : Z := 53.
Definition emax : Z := 1024.

Definition add : spec_float -> spec_float -> spec_float := SFadd prec emax.
Definition ltb : spec_float -> spec_float -> bool := SFltb.
Definition zero : spec_float := S754_zero false.

Definition pow2 (e : Z) : Q :=
  match e with
  | Z0 => 1%Q
  | Zpos p => inject_Z (Z.pow_pos 2 p)
  | Zneg p => (1 # Pos.pow 2 p)%Q
  end.

(** [of_Q q] is the float nearest to [q], ties to even: what [float("...")]
    returns for the numeral of [q].  The quotient is taken with at least 56
    bits and the position of the remainder. *)
Definition of_Q (q : Q) : spec_float :=
  let n := Z.abs (Qnum q) in
  let d := Zpos (Qden q) in
  if n =? 0 then S754_zero false
  else
    let t := Z.max 0 (56 + Z.log2 d - Z.log2 n) in
    let num := n * 2 ^ t in
    let m := num / d in
    let r := num mod d in
    let loc := if r =? 0 then loc_Exact else loc_Inexact (2 * r ?= d) in
    binary_round_aux prec emax (Qnum q <? 0) m (- t) loc.

(** [float(z)] for a Python [int]; overflows beyond the largest float. *)
Definition of_Z (z : Z) : result spec_float :=
  match binary_normalize prec emax z 0 false with
  | S754_infinity _ => raise OverflowError
  | f => ret f
  end.

(** Decimal exponent: the [k] with [10^k <= q < 10^(k+1)], for [q > 0]. *)
Definition pow10 (k : Z) : Q :=
  match k with
  | Z0 => 1%Q
  | Zpos p => inject_Z (Z.pow_pos 10 p)
  | Zneg p => (1 # Pos.pow 10 p)%Q
  end.

Fixpoint adjust_up (fuel : nat) (q : Q) (k : Z) : Z :=
  match fuel with
  | O => k
  | S fuel' => if Qle_bool (pow10 (k + 1)) q then adjust_up fuel' q (k + 1) else k
  end.

Definition ilog10 (q : Q) : Z :=
  let l2 := Z.log2 (Qnum q) - Z.log2 (Zpos (Qden q)) in
  (* log10 q lies within (l2 - 1, l2 + 1) * log10 2 *)
  let k0 := (l2 - 1) * 30102 / 100000 - 1 in
  adjust_up 4 q k0.

(** Nearest integer, ties to even. *)
Definition round_half_even (q : Q) : Z :=
  let n := Qnum q in
  let d := Zpos (Qden q) in
  let f := n / d in
  match (2 * (n mod d) ?= d) with
  | Lt => f
  | Gt => f + 1
  | Eq => if Z.even f then f else f + 1
  end.

(** [q] rounded to [digits] significant decimal digits, for [q > 0]. *)
Definition round_sig (digits : Z) (q : Q) : Q :=
  let k := ilog10 q - digits + 1 in
  (inject_Z (round_half_even (q / pow10 k)) * pow10 k)%Q.

(** The shortest decimal that reads back as the float [m * 2^e]. *)
Fixpoint shortest (fuel : nat) (digits : Z) (m : positive) (e : Z) : Q :=
  let v := (inject_Z (Zpos m) * pow2 e)%Q in
  let c := Qred (round_sig digits v) in
  match fuel with
  | O => c
  | S fuel' =>
      match of_Q c with
      | S754_finite _ m' e' =>
          if (Pos.eqb m m' && Z.eqb e e')%bool then c
          else shortest fuel' (digits + 1) m e
      | _ => shortest fuel' (digits + 1) m e
      end
  end.

Definition repr (m : positive) (e : Z) : Q := shortest 16 1 m e.

End Float.

Local Open Scope Q_scope.

(** ** [decimal.Decimal] *)

Inductive Dec : Type :=
| Fin (q : Q)          (* a finite number *)
| Inf (neg : bool)     (* Infinity, -Infinity *)
| NaN.

Definition negative (q : Q) : bool := (Qnum q <? 0)%Z.
Definition is_zero (q : Q) : bool := (Qnum q =? 0)%Z.

(** Arithmetic under the default context: [InvalidOperation] and
    [DivisionByZero] are trapped, so they raise; a quiet [NaN] operand gives
    [NaN] without raising. *)
Definition dec_neg (a : Dec) : Dec :=
  match a with
  | Fin x => Fin (- x)
  | Inf s => Inf (negb s)
  | NaN => NaN
  end.

Definition dec_abs (a : Dec) : Dec :=
  match a with
  | Fin x => Fin (Qabs x)
  | Inf _ => Inf false
  | NaN => NaN
  end.

Definition dec_add (a b : Dec) : result Dec :=
  match a, b with
  | NaN, _ | _, NaN => ret NaN
  | Inf s, Inf s' => if Bool.eqb s s' then ret (Inf s) else raise InvalidOperation
  | Inf s, Fin _ => ret (Inf s)
  | Fin _, Inf s => ret (Inf s)
  | Fin x, Fin y => ret (Fin (x + y))
  end.

Definition dec_sub (a b : Dec) : result Dec := dec_add a (dec_neg b).

Definition dec_mul (a b : Dec) : result Dec :=
  match a, b with
  | NaN, _ | _, NaN => ret NaN
  | Inf s, Inf s' => ret (Inf (xorb s s'))
  | Inf s, Fin y =>
      if is_zero y then raise InvalidOperation else ret (Inf (xorb s (negative y)))
  | Fin x, Inf s =>
      if is_zero x then raise InvalidOperation else ret (Inf (xorb (negative x) s))
  | Fin x, Fin y => ret (Fin (x * y))
  end.

Definition dec_div (a b : Dec) : result Dec :=
  match a, b with
  | NaN, _ | _, NaN => ret NaN
  | Inf _, Inf _ => raise InvalidOperation
  | Inf s, Fin y => ret (Inf (xorb s (negative y)))
  | Fin _, Inf _ => ret (Fin 0)
  | Fin x, Fin y =>
      if is_zero y then
        if is_zero x then raise InvalidOperation else raise DivisionByZero
      else ret (Fin (x / y))
  end.

(** Ordering comparisons of [Decimal] raise on [NaN]. *)
Definition dec_compare (a b : Dec) : result comparison :=
  match a, b with
  | NaN, _ | _, NaN => raise InvalidOperation
  | Inf s, Inf s' =>
      ret (if Bool.eqb s s' then Eq else if s then Lt else Gt)
  | Inf s, Fin _ => ret (if s then Lt else Gt)
  | Fin _, Inf s => ret (if s then Gt else Lt)
  | Fin x, Fin y => ret (x ?= y)
  end.

Definition dec_le (a b : Dec) : result bool :=
  c <- dec_compare a b ;;
  ret match c with Gt => false | _ => true end.

Definition dec_gt (a b : Dec) : result bool :=
  c <- dec_compare a b ;;
  ret match c with Gt => true | _ => false end.

(** [ROUND_HALF_UP]: to the nearest integer, a tie away from zero. *)
Definition round_half_up (q : Q) : Z :=
  if negative q then (- Qfloor (- q + (1 # 2)))%Z else Qfloor (q + (1 # 2)).

(** [x.quantize(Decimal('0.01'), rounding=ROUND_HALF_UP)] is
    [quantize 100 x]; with [Decimal('0.0001')] it is [quantize 10000 x]. *)
Definition quantize (scale : positive) (x : Q) : Q :=
  round_half_up (x * inject_Z (Zpos scale)) # scale.

Definition round2 : Q -> Q := quantize 100.
Definition round4 : Q -> Q := quantize 10000.

Definition dec_quantize (scale : positive) (a : Dec) : result Dec :=
  match a with
  | Fin x => ret (Fin (quantize scale x))
  | Inf _ => raise InvalidOperation
  | NaN => ret NaN
  end.

(** Comparison of two floats with [<]: false as soon as one is [nan]. *)
Definition float_lt (a b : Dec) : bool :=
  match dec_compare a b with
  | inr Lt => true
  | _ => false
  end.

(** [max(a, b)] of two floats: [b] when [b > a], else [a]. *)
Definition py_max (a b : Dec) : Dec := if float_lt a b then b else a.

(** ** Python objects handed to [calc] *)

Inductive pyval : Type :=
| PyInt (z : Z)
| PyFloat (f : spec_float)
| PyStr (s : string)
| PyNone.

Inductive pyobj : Type :=
| PyList (elems : list pyval)
| PyValue (v : pyval).        (* an argument that is not a list *)

(** [isinstance(price, (int, float))] *)
Definition is_number (v : pyval) : bool :=
  match v with
  | PyInt _ | PyFloat _ => true
  | _ => false
  end.

(** [price < 0], for a number *)
Definition lt_zero (v : pyval) : bool :=
  match v with
  | PyInt z => (z <? 0)%Z
  | PyFloat f => Float.ltb f Float.zero
  | _ => false
  end.

(** [Decimal(str(x))].  Only numbers reach it from [calc]; the numeral of a
    [str] is not parsed here. *)
Definition to_decimal (v : pyval) : result Dec :=
  match v with
  | PyInt z => ret (Fin (inject_Z z))
  | PyFloat (S754_zero _) => ret (Fin 0)
  | PyFloat (S754_finite s m e) =>
      ret (Fin (if s then - Float.repr m e else Float.repr m e))
  | PyFloat (S754_infinity s) => ret (Inf s)
  | PyFloat S754_nan => ret NaN
  | PyStr _ | PyNone => raise InvalidOperation
  end.

(** [a + b] on numbers: an [int] meeting a [float] is converted first. *)
Definition py_add (a b : pyval) : result pyval :=
  match a, b with
  | PyInt x, PyInt y => ret (PyInt (x + y))
  | PyInt x, PyFloat g => f <- Float.of_Z x ;; ret (PyFloat (Float.add f g))
  | PyFloat f, PyInt y => g <- Float.of_Z y ;; ret (PyFloat (Float.add f g))
  | PyFloat f, PyFloat g => ret (PyFloat (Float.add f g))
  | _, _ => raise TypeError
  end.

(** The built-in [sum]: accumulates from the int [0], left to right, with
    [+].  (Recent CPython versions carry a correction term along a run of
    floats; for two floats the result is the same correctly rounded sum.) *)
Fixpoint sum_from (acc : pyval) (l : list pyval) : result pyval :=
  match l with
  | [] => ret acc
  | x :: l' => acc' <- py_add acc x ;; sum_from acc' l'
  end.

Definition py_sum (l : list pyval) : result pyval := sum_from (PyInt 0) l.

(** ** Data model *)

(** One entry of the [configs] list of [calc_conf.json]. *)
Record Config : Type := mkConfig {
  name : string;
  float_a : Q;
  weight_b : Q;
  float_c3 : Q
}.

Record PriceItem : Type := mkPriceItem {
  price : pyval;
  bid_float_rate : Dec;
  config_name : string;
  final_float_a : Dec;
  benchmark_price : Dec;
  score : Dec
}.

Record ScoringRecord : Type := mkRecord {
  items : list PriceItem;
  timestamp : string;
  avg_price : Dec
}.

(** The fields [__init__] loads from the configuration file. *)
Record FractionCalculator : Type := mkCalculator {
  standard_price : Q;
  configs : list Config
}.

(** The calculator and the ['records'] list stored in its result file. *)
Record World : Type := mkWorld {
  calculator : FractionCalculator;
  records : list ScoringRecord
}.

(** What a call reads from outside: the index [random.choice] draws at its
    [k]-th use, and the clock, already formatted. *)
Record Env : Type := mkEnv {
  draw : nat -> nat;
  now : string
}.

(** ** The calculator *)

Section Calculator.

Variable self : FractionCalculator.

Definition _get_random_config (r : nat) : option Config :=
  match configs self with
  | [] => None
  | _ :: _ => nth_error (configs self) (r mod List.length (configs self))
  end.

Definition _calculate_final_float_a (bid_float_rate : Dec) (float_a : Q)
  : result Dec :=
  let float_a_decimal := Fin float_a in
  let bid_float_rate_decimal := bid_float_rate in
  result <-
    (le08 <- dec_le bid_float_rate_decimal (Fin 0.08) ;;
     if le08 then ret float_a_decimal
     else
       le15 <- dec_le bid_float_rate_decimal (Fin 0.15) ;;
       if le15 then dec_sub float_a_decimal (Fin 0.025)
       else dec_sub float_a_decimal (Fin 0.05)) ;;
  dec_quantize 10000 result.

Definition _calculate_float_rate (price : pyval) : result Dec :=
  price_decimal <- to_decimal price ;;
  let standard := Fin (standard_price self) in
  diff <- dec_sub price_decimal standard ;;
  quotient <- dec_div diff standard ;;
  dec_quantize 10000 quotient.

Definition _calculate_average (prices : list pyval) : result Dec :=
  match prices with
  | [] => ret (Fin 0)
  | _ :: _ =>
      s <- py_sum prices ;;
      total <- to_decimal s ;;
      let count := Fin (inject_Z (Z.of_nat (List.length prices))) in
      avg <- dec_div total count ;;
      dec_quantize 100 avg
  end.

Definition _calculate_benchmark_price
  (avg_price : Dec) (config : Config) (final_float_a : Dec) : result Dec :=
  let float_c3 := Fin (float_c3 config) in
  let weight_b := Fin (weight_b config) in
  let standard := Fin (standard_price self) in
  let avg := avg_price in
  let final_a := final_float_a in
  part1 <- (c <- dec_add (Fin 1) float_c3 ;;
            p <- dec_mul avg c ;;
            dec_mul p weight_b) ;;
  part2 <- (a <- dec_sub (Fin 1) final_a ;;
            p <- dec_mul standard a ;;
            b <- dec_sub (Fin 1) weight_b ;;
            dec_mul p b) ;;
  total <- dec_add part1 part2 ;;
  dec_quantize 100 total.

Definition _calculate_score (price : pyval) (benchmark_price : Dec)
  : result Dec :=
  price_decimal <- to_decimal price ;;
  let benchmark_decimal := benchmark_price in
  deviation_rate <-
    (diff <- dec_sub price_decimal benchmark_decimal ;;
     quotient <- dec_div diff benchmark_decimal ;;
     dec_quantize 10000 quotient) ;;
  let base_score := Fin 100 in
  above <- dec_gt deviation_rate (Fin 0) ;;
  deduction <-
    (if above then dec_mul deviation_rate (Fin 200)
     else dec_mul (dec_abs deviation_rate) (Fin 100)) ;;
  rest <- dec_sub base_score deduction ;;
  final_score <- dec_quantize 100 rest ;;
  ret (py_max final_score (Fin 0)).

(** The messages of the [ValueError]s [calc] raises. *)
Definition msg_not_a_list : string := "输入必须是价格列表".
Definition msg_empty : string := "价格列表不能为空".
Definition msg_invalid_price : string := "价格列表中包含无效的价格值".
Definition msg_no_config : string := "无法获取计算配置".

(** [for price in prices: if not isinstance(...) or price < 0: raise] *)
Fixpoint check_prices (prices : list pyval) : result unit :=
  match prices with
  | [] => ret tt
  | price :: rest =>
      if (negb (is_number price) || lt_zero price)%bool
      then raise (ValueError msg_invalid_price)
      else check_prices rest
  end.

(** The body of the loop that builds [items], for the [k]-th price. *)
Definition price_item (env : Env) (avg_price : Dec) (k : nat) (price : pyval)
  : result PriceItem :=
  match _get_random_config (draw env k) with
  | None => raise (ValueError msg_no_config)
  | Some config =>
      bid_float_rate <- _calculate_float_rate price ;;
      final_float_a <- _calculate_final_float_a bid_float_rate (float_a config) ;;
      benchmark_price <- _calculate_benchmark_price avg_price config final_float_a ;;
      score <- _calculate_score price benchmark_price ;;
      ret (mkPriceItem price bid_float_rate (name config) final_float_a
             benchmark_price score)
  end.

Fixpoint price_items (env : Env) (avg_price : Dec) (k : nat)
  (prices : list pyval) : result (list PriceItem) :=
  match prices with
  | [] => ret []
  | price :: rest =>
      item <- price_item env avg_price k price ;;
      items <- price_items env avg_price (S k) rest ;;
      ret (item :: items)
  end.

(** [items.sort(key=lambda x: x['score'], reverse=True)]: a stable sort,
    larger scores first; items of equal score keep their order. *)
Fixpoint insert_by_score (x : PriceItem) (l : list PriceItem) : list PriceItem :=
  match l with
  | [] => [x]
  | y :: l' =>
      if float_lt (score x) (score y) then y :: insert_by_score x l'
      else x :: y :: l'
  end.

Definition sort_by_score (l : list PriceItem) : list PriceItem :=
  fold_right insert_by_score [] l.

(** Everything [calc] does before it touches the result file. *)
Definition new_record (env : Env) (prices : pyobj) : result ScoringRecord :=
  match prices with
  | PyValue _ => raise (ValueError msg_not_a_list)
  | PyList [] => raise (ValueError msg_empty)
  | PyList prices =>
      _ <- check_prices prices ;;
      avg_price <- _calculate_average prices ;;
      items <- price_items env avg_price 0 prices ;;
      let items := sort_by_score items in
      ret (mkRecord items (now env) avg_price)
  end.

End Calculator.

(** [calc]: the record is appended to the result file and returned; an
    exception leaves before the file is read. *)
Definition calc (w : World) (env : Env) (prices : pyobj)
  : result ScoringRecord * World :=
  match new_record (calculator w) env prices with
  | inl e => (inl e, w)
  | inr new_record =>
      (inr new_record, mkWorld (calculator w) (records w ++ [new_record])%list)
  end.

(** ** Construction *)

(** The configuration file as [json.load] returns it; a key may be absent. *)
Record ConfigFile : Type := mkConfigFile {
  file_standard_price : option Q;
  file_configs : option (list Config)
}.

(** [None] is a missing or malformed file. *)
Definition _load_standard_price (file : option ConfigFile) : Q :=
  match file with
  | Some config =>
      match file_standard_price config with
      | Some p => p
      | None => 5385
      end
  | None => 5385
  end.

Definition _load_configs (file : option ConfigFile) : list Config :=
  match file with
  | Some config =>
      match file_configs config with
      | Some l => l
      | None => []
      end
  | None => []
  end.

(** [_ensure_result_file] creates an empty list of records when the result
    file does not exist yet. *)
Definition _ensure_result_file (file : option (list ScoringRecord))
  : list ScoringRecord :=
  match file with
  | Some l => l
  | None => []
  end.

Definition __init__ (result_file : option (list ScoringRecord))
  (config_file : option ConfigFile) : World :=
  mkWorld
    (mkCalculator (_load_standard_price config_file) (_load_configs config_file))
    (_ensure_result_file result_file).

(** ** Definitions used by the statements *)

(** *** The score *)

(** The deduction as the code computes it from the rounded deviation. *)
Definition deduction_of (deviation_rate : Q) : Q :=
  match deviation_rate ?= 0 with
  | Gt => deviation_rate * 200
  | _ => Qabs deviation_rate * 100
  end.




(** *** Sorting by score *)

(** [==] on two floats. *)
Definition float_eq (a b : Dec) : bool :=
  match dec_compare a b with
  | inr Eq => true
  | _ => false
  end.

Definition has_score (s : Dec) (it : PriceItem) : bool := float_eq (score it) s.

Definition finite_score (it : PriceItem) : Prop := exists s, score it = Fin s.

(** [score a >= score b], both being numbers. *)
Definition score_ge (a b : PriceItem) : Prop :=
  exists x y, score a = Fin x /\ score b = Fin y /\ y <= x.

(** *** Which exceptions the arithmetic raises *)

Definition is_value_error (e : exn) : bool :=
  match e with
  | ValueError _ => true
  | _ => false
  end.

(** A computation that never raises a [ValueError]. *)
Definition arithmetic {A : Type} (m : result A) : Prop :=
  forall e, m = raise e -> is_value_error e = false.

Create HintDb arithmetic.

(** *** Validation *)

Definition non_numeric (p : pyval) : Prop := is_number p = false.
Definition negative_price (p : pyval) : Prop := lt_zero p = true.

(** The errors of the validation phase. *)
Definition validation_error (e : exn) : Prop :=
  e = ValueError msg_not_a_list \/
  e = ValueError msg_empty \/
  e = ValueError msg_invalid_price.

(** *** Worked inputs *)

Definition config_A : Config := mkConfig "A" 0.05 0.6 0.02.

Definition example_world : World := mkWorld (mkCalculator 5385 [config_A]) [].

Definition example_env : Env := mkEnv (fun _ => 0%nat) "2025-01-01 00:00:00".

Definition example_prices : pyobj :=
  PyList [PyInt 5200; PyFloat (Float.of_Q 5100.5); PyInt 6000; PyInt 5200].

(** Two prices whose float sum is not their decimal sum. *)
Definition drifting_prices : list pyval :=
  [PyFloat (Float.of_Q 5000); PyFloat (Float.of_Q 5000.03)].

(** Two prices whose float sum overflows. *)
Definition overflowing_prices : list pyval :=
  [PyFloat (Float.of_Q 1e308); PyFloat (Float.of_Q 1e308)].

(** *** Proof steps *)

(** Unfolds the [Decimal] operations and the monad, and nothing else. *)
Ltac dec_step :=
  cbv beta iota delta
    [bind ret raise dec_sub dec_add dec_neg dec_div dec_mul dec_abs
     dec_quantize dec_gt dec_le dec_compare].

(** ** Successive calls and the records they leave *)

(** Successive calls of [calc] on one calculator, as the web page makes
    them, one per click. *)
Fixpoint calc_all (w : World) (calls : list (Env * pyobj)) : World :=
  match calls with
  | [] => w
  | (env, prices) :: rest => calc_all (snd (calc w env prices)) rest
  end.

(** The records the calls that returned have returned, in order. *)
Fixpoint returned (w : World) (calls : list (Env * pyobj)) : list ScoringRecord :=
  match calls with
  | [] => []
  | (env, prices) :: rest =>
      match fst (calc w env prices) with
      | inl _ => returned (snd (calc w env prices)) rest
      | inr rec => rec :: returned (snd (calc w env prices)) rest
      end
  end.

(** A record as [calc] leaves them: ranked, with scores from 0 to 100. *)
Definition ranked (rec : ScoringRecord) : Prop :=
  StronglySorted score_ge (items rec) /\
  Forall (fun it => exists s, score it = Fin s /\ 0 <= s <= 100) (items rec).

(** All the numbers of an item are finite, and its benchmark is not zero. *)
Definition finite_item (it : PriceItem) : Prop :=
  exists p r fa b s,
    to_decimal (price it) = ret (Fin p) /\
    bid_float_rate it = Fin r /\
    final_float_a it = Fin fa /\
    benchmark_price it = Fin b /\ ~ b == 0 /\
    score it = Fin s.





(** ** [gradio_server.py]: the state behind the price inputs *)

(** The value of a component: [None], a number or a text. *)
Inductive ui_value : Type :=
| Blank
| Number (v : pyval)
| Text (s : string).

(** [gr.update(...)], with the keywords that were given. *)
Record gr_update : Type := mkUpdate {
  upd_visible : option bool;
  upd_value : option ui_value;
  upd_label : option string
}.

(** [str(n)] for an int. *)
Definition str_of_nat (n : nat) : string := NilEmpty.string_of_uint (Nat.to_uint n).
Definition str_of_Z (z : Z) : string := NilEmpty.string_of_int (Z.to_int z).

(** [prices.pop(idx)], for [0 <= idx < len(prices)]. *)
Definition pop {A : Type} (idx : nat) (l : list A) : list A :=
  firstn idx l ++ skipn (S idx) l.

(** A price input holds a number or nothing. *)
Definition box_value (prices : list (option pyval)) (i : nat) : ui_value :=
  match nth_error prices i with
  | Some (Some v) => Number v
  | _ => Blank
  end.

Definition update_ui_state (prices : list (option pyval)) (num_inputs : Z)
  : list gr_update :=
  let shown := fun i : nat => (Z.of_nat i <? num_inputs)%Z in
  let row_updates :=
    map (fun i => mkUpdate (Some (shown i)) None None) (seq 0 50) in
  let number_updates :=
    map (fun i =>
           if shown i
           then mkUpdate (Some true) (Some (box_value prices i))
                  (Some ("投标价格 " ++ str_of_nat (i + 1))%string)
           else mkUpdate (Some false) None None) (seq 0 50) in
  let button_updates :=
    map (fun i =>
           if shown i
           then mkUpdate (Some true) (Some (Text "删除此价格")) None
           else mkUpdate (Some false) None None) (seq 0 50) in
  row_updates ++ number_updates ++ button_updates ++
  [mkUpdate None
     (Some (Text ("已添加: " ++ str_of_Z num_inputs ++ "/50")%string)) None].

Definition add_price_input (prices : list (option pyval)) (num_inputs : Z)
  : list (option pyval) * Z :=
  (prices ++ [None], (num_inputs + 1)%Z).

Definition remove_price_input (prices : list (option pyval)) (idx : Z)
  (num_inputs : Z) : list (option pyval) * Z :=
  (if ((0 <=? idx) && (idx <? Z.of_nat (List.length prices)))%Z%bool
   then pop (Z.to_nat idx) prices else prices,
   Z.max 1 (num_inputs - 1)).

(** The handlers return the new state followed by the updates. *)
Definition handle_add (prices : list (option pyval)) (num_inputs : Z)
  : list (option pyval) * Z * list gr_update :=
  let '(prices, num_inputs) :=
    if (num_inputs <? 50)%Z then (prices ++ [None], (num_inputs + 1)%Z)
    else (prices, num_inputs) in
  (prices, num_inputs, update_ui_state prices num_inputs).

Definition handle_remove (idx : Z) (prices : list (option pyval)) (num_inputs : Z)
  : list (option pyval) * Z * list gr_update :=
  let '(prices, num_inputs) :=
    if ((1 <? num_inputs) && ((0 <=? idx) && (idx <? Z.of_nat (List.length prices))))%Z%bool
    then (pop (Z.to_nat idx) prices, (num_inputs - 1)%Z)
    else (prices, num_inputs) in
  (prices, num_inputs, update_ui_state prices num_inputs).

(** The [change] handler of the input at position [idx]:
    [p[:idx] + [x] + p[idx+1:] if idx < len(p) else p]. *)
Definition handle_change (idx : nat) (x : option pyval) (p : list (option pyval))
  : list (option pyval) :=
  if (idx <? List.length p)%nat then firstn idx p ++ [x] ++ skipn (idx + 1) p
  else p.

(** What the user does on the page, and the state it leaves. *)
Inductive ui_event : Type :=
| ClickAdd
| ClickRemove (i : nat)                       (* the button of row [i] *)
| Edit (i : nat) (x : option pyval).          (* the input of row [i] *)

Definition ui_step (st : list (option pyval) * Z) (ev : ui_event)
  : list (option pyval) * Z :=
  let '(prices, num_inputs) := st in
  match ev with
  | ClickAdd => fst (handle_add prices num_inputs)
  | ClickRemove i => fst (handle_remove (Z.of_nat i) prices num_inputs)
  | Edit i x => (handle_change i x prices, num_inputs)
  end.

(** [prices_state = gr.State([None])], [num_inputs_state = gr.State(1)] *)
Definition ui_initial : list (option pyval) * Z := ([None], 1%Z).

(** ** [cmd.py]: the command line *)

(** The two files a calculator reads and writes; [None] is a missing file. *)
Record Disk : Type := mkDisk {
  result_file : option (list ScoringRecord);
  config_file : option ConfigFile
}.

(** The records the result file holds, a missing file holding none. *)
Definition stored (disk : Disk) : list ScoringRecord :=
  _ensure_result_file (result_file disk).

Definition nl : string := String (Ascii.ascii_of_nat 10) EmptyString.

(** ['=' * n] *)
Fixpoint str_repeat (s : string) (n : nat) : string :=
  match n with
  | O => EmptyString
  | S n' => (s ++ str_repeat s n')%string
  end.

(** [pd.DataFrame(...)], by the way it is constructed: with no argument,
    from a dict of columns, from a dict of columns with an index, or from a
    list of rows. *)
Inductive cell : Type :=
| CStr (s : string)
| CInt (z : Z).

Inductive DataFrame : Type :=
| EmptyFrame
| FromColumns (columns : list (string * list cell))
| FromColumnsIndexed (columns : list (string * list cell)) (index : list Z)
| FromRows (rows : list (list (string * cell))).

Section Builtins.

(** Python's own conversions, taken as they are: [float(s)] of a [str],
    [None] when it raises [ValueError]; [format(x, spec)] of a price, which
    raises for an int too large for a float; [format(x, spec)] of a float;
    [str(e)] of an exception. *)
Variable float_of_str : string -> option spec_float.
Variable format_number : string -> pyval -> result string.
Variable format_float : string -> Dec -> string.
Variable str_of_exn : exn -> string.

(** [[float(arg) for arg in args]], or [None] on a [ValueError]. *)
Fixpoint parse_prices (args : list string) : option (list pyval) :=
  match args with
  | [] => Some []
  | arg :: rest =>
      match float_of_str arg with
      | None => None
      | Some f =>
          match parse_prices rest with
          | None => None
          | Some l => Some (PyFloat f :: l)
          end
      end
  end.

Definition format_item (item : PriceItem) : result string :=
  price <- format_number ",.2f" (price item) ;;
  ret (nl ++ "    投标价格: " ++ price ++ nl ++
       "    下浮率: " ++ format_float ".4%" (bid_float_rate item) ++ nl ++
       "    方案序号: " ++ config_name item ++ nl ++
       "    浮动率A: " ++ format_float ".4%" (final_float_a item) ++ nl ++
       "    评标基准价格: " ++ format_float ",.2f" (benchmark_price item) ++ nl ++
       "    商务总报价评分: " ++ format_float ".2f" (score item) ++ nl ++
       "    " ++ str_repeat "=" 50)%string.

Fixpoint format_items (l : list PriceItem) : result (list string) :=
  match l with
  | [] => ret []
  | item :: rest =>
      s <- format_item item ;;
      ss <- format_items rest ;;
      ret (s :: ss)
  end.

Definition format_result (record : ScoringRecord) : result string :=
  strs <- format_items (items record) ;;
  let items_str := String.concat nl strs in
  ret (nl ++ "计算结果:" ++ nl ++
       str_repeat "=" 60 ++ nl ++
       "计算时间: " ++ timestamp record ++ nl ++
       "平均价格: " ++ format_float ",.2f" (avg_price record) ++ nl ++
       str_repeat "=" 60 ++ nl ++
       "价格项列表 (按评分从高到低排序):" ++ items_str ++ nl)%string.

Definition usage : string := "用法: calc 价格1 价格2 价格3 ...".

(** [process_command]: what it prints, and the files it leaves. *)
Definition process_command (env : Env) (disk : Disk) (args : list string)
  : string * Disk :=
  match args with
  | [] => (usage, disk)
  | command :: rest =>
      if negb (String.eqb command "calc") then (usage, disk)
      else
        match parse_prices rest with
        | None => ("错误: 价格必须是有效的数字"%string, disk)
        | Some [] => ("错误: 请至少输入一个价格"%string, disk)
        | Some prices =>
            let calculator := __init__ (result_file disk) (config_file disk) in
            let '(result, w) := calc calculator env (PyList prices) in
            let disk := mkDisk (Some (records w)) (config_file disk) in
            match bind result format_result with
            | inr text => (text, disk)
            | inl e => (("计算过程中出现错误: " ++ str_of_exn e)%string, disk)
            end
        end
  end.

(** *** [gradio_server.py]: the calculation behind the page *)

(** The loop of [format_result] that fills [detail_data], [done] rows
    being there already. *)
Fixpoint detail_rows (done : nat) (l : list PriceItem)
  : result (list (list (string * cell))) :=
  match l with
  | [] => ret []
  | item :: rest =>
      price <- format_number ",.2f" (price item) ;;
      let row :=
        [("序号"%string, CInt (Z.of_nat done + 1));
         ("投标价格"%string, CStr price);
         ("下浮率"%string, CStr (format_float ".2%" (bid_float_rate item)));
         ("方案序号"%string, CStr (config_name item));
         ("浮动率A"%string, CStr (format_float ".4%" (final_float_a item)));
         ("评标基准价格"%string,
           CStr (format_float ",.2f" (benchmark_price item)));
         ("商务总报价评分"%string, CStr (format_float ".2f" (score item)))] in
      more <- detail_rows (S done) rest ;;
      ret (row :: more)
  end.

Definition ui_format_result (record : ScoringRecord)
  : result (DataFrame * DataFrame) :=
  let summary_data :=
    [("计算时间"%string, [CStr (timestamp record)]);
     ("平均价格"%string, [CStr (format_float ",.2f" (avg_price record))]);
     ("价格数量"%string, [CInt (Z.of_nat (List.length (items record)))])] in
  let summary_df := FromColumns summary_data in
  detail_data <- detail_rows O (items record) ;;
  let detail_df := FromRows detail_data in
  ret (summary_df, detail_df).

(** [[p for p in prices if p is not None]] *)
Fixpoint not_none (prices : list (option pyval)) : list pyval :=
  match prices with
  | [] => []
  | Some p :: rest => p :: not_none rest
  | None :: rest => not_none rest
  end.

Definition calculate (w : World) (env : Env) (prices : list (option pyval))
  : (DataFrame * DataFrame) * World :=
  let valid_prices := not_none prices in
  match valid_prices with
  | [] => ((EmptyFrame, EmptyFrame), w)
  | _ :: _ =>
      let '(result, w) := calc w env (PyList valid_prices) in
      match bind result ui_format_result with
      | inr frames => (frames, w)
      | inl e =>
          ((FromColumnsIndexed [("错误"%string, [CStr (str_of_exn e)])] [0%Z],
            EmptyFrame), w)
      end
  end.

End Builtins.

(** The list of inputs and their count agree, from 1 to 50 inputs. *)
Definition in_step (st : list (option pyval) * Z) : Prop :=
  Z.of_nat (List.length (fst st)) = snd st /\ (1 <= snd st <= 50)%Z.

(** * Properties *)

(** ** Rounding *)

Lemma negative_true (q : Q) : negative q = true <-> q < 0.
Proof.
  unfold negative, Qlt. simpl. rewrite Z.ltb_lt. lia.
Qed.

Lemma negative_false (q : Q) : negative q = false <-> 0 <= q.
Proof.
  unfold negative, Qle. simpl. rewrite Z.ltb_ge. lia.
Qed.

Lemma is_zero_true (q : Q) : is_zero q = true <-> q == 0.
Proof.
  unfold is_zero, Qeq. simpl. rewrite Z.eqb_eq. lia.
Qed.

Lemma is_zero_false (q : Q) : is_zero q = false <-> ~ q == 0.
Proof.
  rewrite <- is_zero_true. destruct (is_zero q); intuition congruence.
Qed.



(** Ties go away from zero, and the result is the nearest integer. *)
Lemma round_half_up_opp (q : Q) : ~ q == 0 ->
  round_half_up (- q) = (- round_half_up q)%Z.
Proof.
  intros Hq. unfold round_half_up.
  destruct (negative q) eqn:Hn, (negative (- q)) eqn:Hn'.
  - apply negative_true in Hn, Hn'. lra.
  - rewrite Z.opp_involutive. reflexivity.
  - now rewrite Qopp_involutive.
  - apply negative_false in Hn, Hn'. exfalso. apply Hq. lra.
Qed.

Lemma round_half_up_near (q : Q) :
  Qabs (inject_Z (round_half_up q) - q) <= 1 # 2.
Proof.
  unfold round_half_up. apply Qabs_Qle_condition.
  destruct (negative q).
  - pose proof (Qfloor_le (- q + (1 # 2))) as Hl.
    pose proof (Qlt_floor (- q + (1 # 2))) as Hu.
    rewrite inject_Z_plus in Hu. rewrite inject_Z_opp.
    change (inject_Z 1) with 1 in Hu. lra.
  - pose proof (Qfloor_le (q + (1 # 2))) as Hl.
    pose proof (Qlt_floor (q + (1 # 2))) as Hu.
    rewrite inject_Z_plus in Hu.
    change (inject_Z 1) with 1 in Hu. lra.
Qed.

Lemma round_half_up_tie_pos (z : Z) : (0 <= z)%Z ->
  round_half_up (inject_Z z + (1 # 2)) = (z + 1)%Z.
Proof.
  intros Hz. unfold round_half_up.
  assert (Hn : negative (inject_Z z + (1 # 2)) = false).
  { apply negative_false. assert (0 <= inject_Z z) by (unfold Qle; simpl; lia). lra. }
  rewrite Hn.
  setoid_replace (inject_Z z + (1 # 2) + (1 # 2)) with (inject_Z (z + 1))
    by (rewrite inject_Z_plus; change (inject_Z 1) with 1; ring).
  apply Qfloor_Z.
Qed.

Lemma Qfloor_lower (x : Q) (k : Z) : inject_Z k <= x -> (k <= Qfloor x)%Z.
Proof.
  intros H. rewrite <- (Qfloor_Z k). now apply Qfloor_resp_le.
Qed.

Lemma Qfloor_upper (x : Q) (k : Z) : x < inject_Z k + 1 -> (Qfloor x <= k)%Z.
Proof.
  intros H. pose proof (Qfloor_le x) as Hl.
  assert (Hlt : inject_Z (Qfloor x) < inject_Z (k + 1)).
  { rewrite inject_Z_plus. change (inject_Z 1) with 1. lra. }
  unfold Qlt in Hlt. simpl in Hlt. lia.
Qed.



Lemma round_half_up_le (q : Q) (k : Z) :
  q <= inject_Z k -> (round_half_up q <= k)%Z.
Proof.
  intros H. unfold round_half_up. destruct (negative q).
  - enough (- k <= Qfloor (- q + (1 # 2)))%Z by lia.
    apply Qfloor_lower. rewrite inject_Z_opp. lra.
  - apply Qfloor_upper. lra.
Qed.

(** ** [quantize] *)




Lemma scale_pos (scale : positive) : 0 < inject_Z (Zpos scale).
Proof. unfold Qlt. simpl. lia. Qed.



Lemma quantize_le (scale : positive) (x : Q) (k : Z) :
  x <= inject_Z k -> quantize scale x <= inject_Z k.
Proof.
  intros H. unfold quantize.
  assert (Hr : (round_half_up (x * inject_Z (Zpos scale)) <= k * Zpos scale)%Z).
  { apply round_half_up_le. rewrite inject_Z_mult.
    pose proof (scale_pos scale). nra. }
  unfold Qle. simpl. lia.
Qed.


(** ** The score calculator *)


Lemma deduction_of_nonneg (d : Q) : 0 <= deduction_of d.
Proof.
  unfold deduction_of. destruct (d ?= 0) eqn:E.
  - pose proof (Qabs_nonneg d). lra.
  - pose proof (Qabs_nonneg d). lra.
  - apply Qgt_alt in E. lra.
Qed.

Lemma py_max_zero (x : Q) :
  py_max (Fin x) (Fin 0) = Fin (if negative x then 0 else x).
Proof.
  unfold py_max, float_lt, dec_compare, ret.
  destruct (x ?= 0) eqn:E;
    [apply Qeq_alt in E | apply Qlt_alt in E | apply Qgt_alt in E];
    destruct (negative x) eqn:Hn; try reflexivity;
    (apply negative_true in Hn || apply negative_false in Hn); lra.
Qed.



(** A score that is returned is a number between 0 and 100. *)
Lemma _calculate_score_range (price : pyval) (benchmark_price sc : Dec) :
  _calculate_score price benchmark_price = ret sc ->
  exists s, sc = Fin s /\ 0 <= s <= 100.
Proof.
  unfold _calculate_score.
  destruct (to_decimal price) as [e | [p | sp | ]]; dec_step; [discriminate | | | ].
  - destruct benchmark_price as [b | sb | ]; dec_step.
    + destruct (is_zero b) eqn:Hb.
      * destruct (is_zero (p + - b)); discriminate.
      * set (dev := quantize 10000 ((p + - b) / b)).
        assert (Hd : forall d, 0 <= d ->
                  exists s, py_max (Fin (quantize 100 (100 + - d))) (Fin 0) = Fin s
                            /\ 0 <= s <= 100).
        { intros d Hd. rewrite py_max_zero. eexists. split; [reflexivity|].
          destruct (negative (quantize 100 (100 + - d))) eqn:Hn; [lra|].
          apply negative_false in Hn. split; [assumption|].
          apply (quantize_le 100 _ 100). change (inject_Z 100) with 100. lra. }
        pose proof (deduction_of_nonneg dev) as Hnn. unfold deduction_of in Hnn.
        destruct (dev ?= 0); intros H; injection H as <-; apply Hd; exact Hnn.
    + discriminate.
    + discriminate.
  - destruct benchmark_price as [b | sb | ]; dec_step; try discriminate.
    destruct (Bool.eqb sp (negb sb)); discriminate.
  - destruct benchmark_price as [b | sb | ]; dec_step; discriminate.
Qed.

(** ** Sorting by score *)

Lemma float_lt_not_eq (a b s : Dec) :
  float_lt a b = true -> float_eq a s = true -> float_eq b s = true -> False.
Proof.
  unfold float_lt, float_eq.
  destruct a as [x | sa | ], b as [y | sb | ], s as [z | ss | ];
    cbv beta iota delta [dec_compare ret raise]; try discriminate;
    try (repeat match goal with c : bool |- _ => destruct c end;
         simpl; intros; discriminate).
  destruct (x ?= y) eqn:Hxy; try discriminate.
  destruct (x ?= z) eqn:Hxz; try discriminate.
  destruct (y ?= z) eqn:Hyz; try discriminate.
  apply Qlt_alt in Hxy. apply Qeq_alt in Hxz, Hyz. lra.
Qed.

Lemma float_lt_finite (x y : Q) : float_lt (Fin x) (Fin y) = true <-> x < y.
Proof.
  unfold float_lt, dec_compare, ret. rewrite Qlt_alt.
  destruct (x ?= y); intuition discriminate.
Qed.

Lemma insert_by_score_perm (x : PriceItem) (l : list PriceItem) :
  Permutation (insert_by_score x l) (x :: l).
Proof.
  induction l as [| y l IH]; simpl.
  - apply Permutation_refl.
  - destruct (float_lt (score x) (score y)).
    + apply perm_trans with (y :: x :: l).
      * now apply perm_skip.
      * apply perm_swap.
    + apply Permutation_refl.
Qed.

Lemma sort_by_score_perm (l : list PriceItem) : Permutation (sort_by_score l) l.
Proof.
  induction l as [| x l IH]; simpl.
  - apply perm_nil.
  - apply perm_trans with (x :: sort_by_score l).
    + apply insert_by_score_perm.
    + now apply perm_skip.
Qed.

(** Insertion never moves an item past one of equal score. *)
Lemma insert_by_score_filter (s : Dec) (x : PriceItem) (l : list PriceItem) :
  filter (has_score s) (insert_by_score x l) = filter (has_score s) (x :: l).
Proof.
  induction l as [| y l IH].
  - reflexivity.
  - cbn [insert_by_score].
    destruct (float_lt (score x) (score y)) eqn:Hlt; [|reflexivity].
    cbn [filter] in *. rewrite IH.
    destruct (has_score s x) eqn:Hx, (has_score s y) eqn:Hy; try reflexivity.
    exfalso. exact (float_lt_not_eq _ _ _ Hlt Hx Hy).
Qed.

Lemma sort_by_score_stable (s : Dec) (l : list PriceItem) :
  filter (has_score s) (sort_by_score l) = filter (has_score s) l.
Proof.
  induction l as [| x l IH].
  - reflexivity.
  - cbn [sort_by_score fold_right]. fold (sort_by_score l).
    rewrite insert_by_score_filter. cbn [filter]. now rewrite IH.
Qed.

Lemma score_ge_trans (a b c : PriceItem) :
  score_ge a b -> score_ge b c -> score_ge a c.
Proof.
  intros (x & y & Ha & Hb & Hxy) (y' & z & Hb' & Hc & Hyz).
  rewrite Hb in Hb'. injection Hb' as <-.
  exists x, z. repeat split; try assumption. lra.
Qed.

Lemma insert_by_score_sorted (x : PriceItem) (l : list PriceItem) :
  finite_score x -> Forall finite_score l ->
  StronglySorted score_ge l -> StronglySorted score_ge (insert_by_score x l).
Proof.
  intros [sx Hx] Hfin Hs. induction Hs as [| y l Hs IH Hy].
  - simpl. constructor; constructor.
  - inversion Hfin as [| ? ? [sy Hsy] Hfin']; subst. cbn [insert_by_score].
    rewrite Hx, Hsy. destruct (float_lt (Fin sx) (Fin sy)) eqn:Hlt.
    + constructor; [now apply IH|].
      apply Permutation_Forall with (x :: l).
      * apply Permutation_sym, insert_by_score_perm.
      * constructor; [|assumption].
        apply float_lt_finite in Hlt. exists sy, sx. repeat split; try assumption. lra.
    + assert (Hle : sy <= sx).
      { destruct (Qlt_le_dec sx sy) as [H | H]; [|assumption].
        apply float_lt_finite in H. congruence. }
      assert (Hxy : score_ge x y) by (exists sx, sy; repeat split; assumption).
      constructor; [now constructor|].
      constructor; [assumption|].
      eapply Forall_impl; [|exact Hy].
      intros z Hz. now apply score_ge_trans with y.
Qed.

Lemma sort_by_score_sorted (l : list PriceItem) :
  Forall finite_score l -> StronglySorted score_ge (sort_by_score l).
Proof.
  induction l as [| x l IH]; intros Hfin.
  - constructor.
  - inversion Hfin; subst. cbn [sort_by_score fold_right]. fold (sort_by_score l).
    apply insert_by_score_sorted; [assumption | | now apply IH].
    apply Permutation_Forall with l; [|assumption].
    apply Permutation_sym, sort_by_score_perm.
Qed.

(** ** The error monad *)

Lemma bind_ret_inv {A B : Type} (m : result A) (k : A -> result B) (b : B) :
  bind m k = ret b -> exists a, m = ret a /\ k a = ret b.
Proof.
  destruct m as [e | a]; simpl; [discriminate|]. intros H. now exists a.
Qed.

(** ** Which exceptions the arithmetic raises *)

Lemma arithmetic_ret {A : Type} (a : A) : arithmetic (ret a).
Proof. intros e H. discriminate. Qed.

Lemma arithmetic_raise {A : Type} (e : exn) :
  is_value_error e = false -> arithmetic (@raise A e).
Proof. intros He e' H. injection H as <-. exact He. Qed.

Lemma arithmetic_bind {A B : Type} (m : result A) (k : A -> result B) :
  arithmetic m -> (forall a, arithmetic (k a)) -> arithmetic (bind m k).
Proof.
  intros Hm Hk e. destruct m as [e' | a]; simpl.
  - intros H. apply Hm. injection H as <-. reflexivity.
  - apply Hk.
Qed.

Lemma arithmetic_if {A : Type} (c : bool) (x y : result A) :
  arithmetic x -> arithmetic y -> arithmetic (if c then x else y).
Proof. destruct c; auto. Qed.

Ltac arithmetic_cases :=
  intros; cbv beta iota delta [dec_sub dec_add dec_neg dec_div dec_mul
    dec_quantize dec_gt dec_le dec_compare to_decimal py_add Float.of_Z];
  repeat match goal with
    | |- arithmetic (match ?x with _ => _ end) => destruct x
    | |- arithmetic (bind _ _) => apply arithmetic_bind; [|intros]
    | |- arithmetic (ret _) => apply arithmetic_ret
    | |- arithmetic (raise _) => apply arithmetic_raise; reflexivity
    end.

Lemma arithmetic_dec_add (a b : Dec) : arithmetic (dec_add a b).
Proof. arithmetic_cases. Qed.

Lemma arithmetic_dec_sub (a b : Dec) : arithmetic (dec_sub a b).
Proof. arithmetic_cases. Qed.

Lemma arithmetic_dec_mul (a b : Dec) : arithmetic (dec_mul a b).
Proof. arithmetic_cases. Qed.

Lemma arithmetic_dec_div (a b : Dec) : arithmetic (dec_div a b).
Proof. arithmetic_cases. Qed.

Lemma arithmetic_dec_quantize (scale : positive) (a : Dec) :
  arithmetic (dec_quantize scale a).
Proof. arithmetic_cases. Qed.

Lemma arithmetic_dec_le (a b : Dec) : arithmetic (dec_le a b).
Proof. arithmetic_cases. Qed.

Lemma arithmetic_dec_gt (a b : Dec) : arithmetic (dec_gt a b).
Proof. arithmetic_cases. Qed.

Lemma arithmetic_to_decimal (v : pyval) : arithmetic (to_decimal v).
Proof. arithmetic_cases. Qed.

Lemma arithmetic_py_add (a b : pyval) : arithmetic (py_add a b).
Proof. arithmetic_cases. Qed.

Lemma arithmetic_sum_from (l : list pyval) (acc : pyval) :
  arithmetic (sum_from acc l).
Proof.
  revert acc. induction l as [| x l IH]; intros acc; simpl.
  - apply arithmetic_ret.
  - apply arithmetic_bind; [apply arithmetic_py_add | intros; apply IH].
Qed.

#[global] Hint Resolve arithmetic_ret arithmetic_bind arithmetic_if
  arithmetic_dec_add arithmetic_dec_sub arithmetic_dec_mul arithmetic_dec_div
  arithmetic_dec_quantize arithmetic_dec_le arithmetic_dec_gt
  arithmetic_to_decimal arithmetic_sum_from : arithmetic.

Lemma arithmetic_average (prices : list pyval) :
  arithmetic (_calculate_average prices).
Proof.
  unfold _calculate_average, py_sum. destruct prices; auto 10 with arithmetic.
Qed.

Lemma arithmetic_float_rate (self : FractionCalculator) (price : pyval) :
  arithmetic (_calculate_float_rate self price).
Proof. unfold _calculate_float_rate. auto 10 with arithmetic. Qed.

Lemma arithmetic_final_float_a (bid_float_rate : Dec) (float_a : Q) :
  arithmetic (_calculate_final_float_a bid_float_rate float_a).
Proof.
  unfold _calculate_final_float_a. cbv zeta. auto 20 with arithmetic.
Qed.

Lemma arithmetic_benchmark_price (self : FractionCalculator)
  (avg_price : Dec) (config : Config) (final_float_a : Dec) :
  arithmetic (_calculate_benchmark_price self avg_price config final_float_a).
Proof. unfold _calculate_benchmark_price. auto 20 with arithmetic. Qed.

Lemma arithmetic_score (price : pyval) (benchmark_price : Dec) :
  arithmetic (_calculate_score price benchmark_price).
Proof.
  unfold _calculate_score. cbv zeta. auto 20 with arithmetic.
Qed.

(** ** The loop over the prices *)

Section Pipeline.

Variable self : FractionCalculator.
Variable env : Env.

(** What an item records, read off the body of the loop. *)
Lemma price_item_inv (avg : Dec) (k : nat) (p : pyval) (it : PriceItem) :
  price_item self env avg k p = ret it ->
  exists config,
    _get_random_config self (draw env k) = Some config /\
    _calculate_float_rate self p = ret (bid_float_rate it) /\
    _calculate_final_float_a (bid_float_rate it) (float_a config)
      = ret (final_float_a it) /\
    _calculate_benchmark_price self avg config (final_float_a it)
      = ret (benchmark_price it) /\
    _calculate_score p (benchmark_price it) = ret (score it) /\
    price it = p /\ config_name it = name config.
Proof.
  unfold price_item.
  destruct (_get_random_config self (draw env k)) as [config |]; [|discriminate].
  intros H.
  apply bind_ret_inv in H as (r & Hr & H).
  apply bind_ret_inv in H as (a & Ha & H).
  apply bind_ret_inv in H as (b & Hb & H).
  apply bind_ret_inv in H as (s & Hs & H).
  injection H as <-. exists config. simpl. repeat split; assumption.
Qed.

Lemma price_items_inv (avg : Dec) (l : list pyval) :
  forall (k : nat) (its : list PriceItem),
    price_items self env avg k l = ret its ->
    Forall2 (fun p it => exists j, price_item self env avg j p = ret it) l its.
Proof.
  induction l as [| p l IH]; intros k its H; simpl in H.
  - injection H as <-. constructor.
  - apply bind_ret_inv in H as (it & Hit & H).
    apply bind_ret_inv in H as (its' & Hits & H).
    injection H as <-. constructor; [now exists k | now apply IH with (S k)].
Qed.

Lemma price_items_prices (avg : Dec) (l : list pyval) (k : nat)
  (its : list PriceItem) :
  price_items self env avg k l = ret its -> map price its = l.
Proof.
  intros H. apply price_items_inv in H.
  induction H as [| p it l its [j Hj] _ IH]; simpl.
  - reflexivity.
  - apply price_item_inv in Hj as (c & _ & _ & _ & _ & _ & Hp & _).
    now rewrite Hp, IH.
Qed.

Lemma price_items_scores (avg : Dec) (l : list pyval) (k : nat)
  (its : list PriceItem) :
  price_items self env avg k l = ret its ->
  Forall (fun it => exists s, score it = Fin s /\ 0 <= s <= 100) its.
Proof.
  intros H. apply price_items_inv in H.
  induction H as [| p it l its [j Hj] _ IH]; constructor; [|assumption].
  apply price_item_inv in Hj as (c & _ & _ & _ & _ & Hs & _).
  now apply _calculate_score_range in Hs.
Qed.

(** The loop raises nothing but the missing-configuration [ValueError] and
    what the arithmetic raises. *)
Lemma price_item_raise (avg : Dec) (k : nat) (p : pyval) (e : exn) :
  price_item self env avg k p = raise e ->
  e = ValueError msg_no_config \/ is_value_error e = false.
Proof.
  unfold price_item.
  destruct (_get_random_config self (draw env k)) as [config |].
  - intros H. right. revert e H.
    match goal with
    | |- forall e, ?X = raise e -> _ => change (arithmetic X)
    end.
    pose proof (arithmetic_float_rate self p).
    pose proof arithmetic_final_float_a.
    pose proof (arithmetic_benchmark_price self avg config).
    pose proof (arithmetic_score p).
    auto 20 with arithmetic.
  - intros H. left. now injection H as <-.
Qed.

Lemma price_items_raise (avg : Dec) (l : list pyval) :
  forall (k : nat) (e : exn),
    price_items self env avg k l = raise e ->
    e = ValueError msg_no_config \/ is_value_error e = false.
Proof.
  induction l as [| p l IH]; intros k e H; simpl in H; [discriminate|].
  destruct (price_item self env avg k p) as [e' | it] eqn:Hit; simpl in H.
  - injection H as <-. now apply price_item_raise in Hit.
  - destruct (price_items self env avg (S k) l) as [e' | its] eqn:Hl;
      simpl in H; [|discriminate].
    injection H as <-. now apply IH with (S k).
Qed.

(** With no configuration at all, the first price already fails, whatever
    the price and the average are: no arithmetic runs for it. *)
Lemma price_item_no_config (avg : Dec) (k : nat) (p : pyval) :
  configs self = [] ->
  price_item self env avg k p = raise (ValueError msg_no_config).
Proof.
  intros H. unfold price_item, _get_random_config. now rewrite H.
Qed.

(** The record [calc] builds, when it builds one. *)
Lemma new_record_inv (prices : pyobj) (rec : ScoringRecord) :
  new_record self env prices = ret rec ->
  exists l its,
    prices = PyList l /\ l <> [] /\
    check_prices l = ret tt /\
    _calculate_average l = ret (avg_price rec) /\
    price_items self env (avg_price rec) 0 l = ret its /\
    items rec = sort_by_score its /\
    timestamp rec = now env.
Proof.
  unfold new_record. destruct prices as [l | v]; [|discriminate].
  destruct l as [| p l]; [discriminate|].
  intros H.
  apply bind_ret_inv in H as ([] & Hc & H).
  apply bind_ret_inv in H as (avg & Ha & H).
  apply bind_ret_inv in H as (its & Hi & H).
  injection H as <-. exists (p :: l), its. simpl.
  repeat split; try assumption. discriminate.
Qed.

End Pipeline.

(** ** Validation *)

Lemma check_prices_spec (l : list pyval) :
  (check_prices l = ret tt /\
   Forall (fun p => is_number p = true /\ lt_zero p = false) l) \/
  (check_prices l = raise (ValueError msg_invalid_price) /\
   (Exists non_numeric l \/ Exists negative_price l)).
Proof.
  induction l as [| p l IH]; simpl.
  - left. split; [reflexivity | constructor].
  - destruct (is_number p) eqn:Hn; simpl.
    + destruct (lt_zero p) eqn:Hz.
      * right. split; [reflexivity|]. right. now constructor.
      * destruct IH as [[Hc Hf] | [Hc [He | He]]].
        -- left. split; [assumption|]. constructor; [now split | assumption].
        -- right. split; [assumption|]. left. now apply Exists_cons_tl.
        -- right. split; [assumption|]. right. now apply Exists_cons_tl.
    + right. split; [reflexivity|]. left. now constructor.
Qed.

Lemma check_prices_valid (l : list pyval) :
  check_prices l = ret tt -> ~ (Exists non_numeric l \/ Exists negative_price l).
Proof.
  intros H. destruct (check_prices_spec l) as [[_ Hf] | [Hc _]].
  - rewrite Forall_forall in Hf. unfold non_numeric, negative_price.
    intros [He | He]; apply Exists_exists in He as (p & Hin & Hp);
      destruct (Hf p Hin); congruence.
  - rewrite Hc in H. discriminate.
Qed.

Lemma no_config_not_validation : ~ validation_error (ValueError msg_no_config).
Proof.
  intros [H | [H | H]]; discriminate.
Qed.

Lemma arithmetic_not_validation (e : exn) :
  is_value_error e = false -> ~ validation_error e.
Proof.
  intros He [H | [H | H]]; subst e; discriminate.
Qed.

(** What [new_record] raises once the prices are valid. *)
Lemma new_record_raise_valid (self : FractionCalculator) (env : Env)
  (l : list pyval) (e : exn) :
  l <> [] -> check_prices l = ret tt ->
  new_record self env (PyList l) = raise e ->
  ~ validation_error e.
Proof.
  intros Hne Hc H. unfold new_record in H.
  destruct l as [| p l]; [congruence|]. rewrite Hc in H. cbn [bind ret] in H.
  destruct (_calculate_average (p :: l)) as [e' | avg] eqn:Ha.
  - cbn [bind raise] in H. injection H as <-.
    apply arithmetic_not_validation. now apply (arithmetic_average (p :: l)).
  - cbn [bind] in H.
    destruct (price_items self env avg 0 (p :: l)) as [e' | its] eqn:Hi.
    + cbn [bind raise] in H. injection H as <-.
      apply price_items_raise in Hi as [-> | Hi].
      * apply no_config_not_validation.
      * now apply arithmetic_not_validation.
    + discriminate.
Qed.

(** The average is computed once; every item's benchmark price is computed
    from that one value, which is also the record's [avg_price]. *)
Lemma items_share_average (w w' : World) (env : Env) (prices : pyobj)
  (rec : ScoringRecord) :
  calc w env prices = (ret rec, w') ->
  exists l,
    prices = PyList l /\
    _calculate_average l = ret (avg_price rec) /\
    forall it, In it (items rec) ->
      exists config,
        _calculate_benchmark_price (calculator w) (avg_price rec) config
          (final_float_a it) = ret (benchmark_price it).
Proof.
  unfold calc. destruct (new_record (calculator w) env prices) as [e | r] eqn:Hn;
    [discriminate|].
  intros H. injection H as <- <-.
  apply new_record_inv in Hn as (l & its & Hp & _ & _ & Ha & Hi & Hs & _).
  exists l. split; [assumption|]. split; [assumption|].
  intros it Hin. rewrite Hs in Hin.
  apply (Permutation_in _ (sort_by_score_perm its)) in Hin.
  apply price_items_inv in Hi. clear Hp Ha Hs.
  induction Hi as [| p it' l' its' [j Hj] _ IH]; [contradiction|].
  destruct Hin as [<- | Hin]; [|now apply IH].
  apply price_item_inv in Hj as (c & _ & _ & _ & Hb & _). now exists c.
Qed.

(** * The claims *)

(** C1: with a standard price of 5385, the configuration
    [{name "A", float_a 0.05, weight_b 0.6, float_c3 0.02}] drawn for the
    item and the price list [[5200]], [calc] returns a record whose average
    is 5200.00 and whose only item has float rate -0.0344, final float_a
    0.0500, benchmark price 5228.70 and score 99.45.  It holds for the int
    5200 and for the float 5200.0. *)
Theorem worked_scenario (w : World) (env : Env) :
  standard_price (calculator w) = 5385 ->
  _get_random_config (calculator w) (draw env 0) = Some config_A ->
  fst (calc w env (PyList [PyInt 5200])) =
    ret (mkRecord
           [mkPriceItem (PyInt 5200) (Fin (-0.0344)) "A" (Fin 0.0500)
              (Fin 5228.70) (Fin 99.45)]
           (now env) (Fin 5200.00)) /\
  fst (calc w env (PyList [PyFloat (Float.of_Q 5200)])) =
    ret (mkRecord
           [mkPriceItem (PyFloat (Float.of_Q 5200)) (Fin (-0.0344)) "A"
              (Fin 0.0500) (Fin 5228.70) (Fin 99.45)]
           (now env) (Fin 5200.00)).
Proof.
  destruct w as [[sp cfgs] recs]. cbn [calculator standard_price].
  intros -> Hc.
  unfold calc, new_record, price_items, price_item. cbn [calculator].
  rewrite Hc. split; vm_compute; reflexivity.
Qed.

Lemma worked_scenario_witness :
  standard_price (calculator example_world) = 5385 /\
  _get_random_config (calculator example_world) (draw example_env 0)
    = Some config_A /\
  fst (calc example_world example_env (PyList [PyInt 5200])) =
    ret (mkRecord
           [mkPriceItem (PyInt 5200) (Fin (-0.0344)) "A" (Fin 0.0500)
              (Fin 5228.70) (Fin 99.45)]
           (now example_env) (Fin 5200.00)).
Proof.
  split; [reflexivity|]. split; [reflexivity|].
  apply (worked_scenario example_world example_env); reflexivity.
Defined.








(** C4, where the code departs from it: [_calculate_average] adds the
    prices with the built-in [sum], in binary floating point, and only then
    converts to [Decimal].  The floats 5000.0 and 5000.03 add up to
    10000.029999999999, so the average comes out as 5000.01, where the
    decimal sum 10000.03 gives 5000.015, rounded to 5000.02. *)
Theorem average_adds_in_binary :
  to_decimal (PyFloat (Float.of_Q 5000)) = ret (Fin 5000) /\
  to_decimal (PyFloat (Float.of_Q 5000.03)) = ret (Fin 5000.03) /\
  bind (py_sum drifting_prices) to_decimal = ret (Fin 10000.029999999999) /\
  _calculate_average drifting_prices = ret (Fin 5000.01) /\
  round2 ((5000 + 5000.03) / 2) = 5000.02.
Proof.
  repeat split; vm_compute; reflexivity.
Qed.

Lemma calc_inv (w w' : World) (env : Env) (prices : pyobj) (rec : ScoringRecord) :
  calc w env prices = (ret rec, w') ->
  new_record (calculator w) env prices = ret rec /\
  w' = mkWorld (calculator w) (records w ++ [rec]).
Proof.
  unfold calc. destruct (new_record (calculator w) env prices) as [e | r].
  - discriminate.
  - intros H. injection H as <- <-. split; reflexivity.
Qed.

(** C5: in every record [calc] returns, the score of every item lies
    between 0 and 100. *)
Theorem score_bounds (w w' : World) (env : Env) (prices : pyobj)
  (rec : ScoringRecord) :
  calc w env prices = (ret rec, w') ->
  forall it, In it (items rec) ->
    exists s, score it = Fin s /\ 0 <= s <= 100.
Proof.
  intros H it Hin. apply calc_inv in H as [H _].
  apply new_record_inv in H as (l & its & _ & _ & _ & _ & Hi & Hs & _).
  apply price_items_scores in Hi. rewrite Forall_forall in Hi. apply Hi.
  rewrite Hs in Hin.
  apply Permutation_in with (sort_by_score its); [|assumption].
  apply sort_by_score_perm.
Qed.

Lemma score_bounds_witness :
  exists rec w',
    calc example_world example_env example_prices = (ret rec, w') /\
    forall it, In it (items rec) ->
      exists s, score it = Fin s /\ 0 <= s <= 100.
Proof.
  eexists. eexists. split; [vm_compute; reflexivity|].
  eapply (score_bounds example_world _ example_env example_prices).
  vm_compute. reflexivity.
Defined.

(** C6: in every record [calc] returns, the items are in non-increasing
    order of score, and the items of any one score are in the order of the
    loop over the prices, which is the order of the input list. *)
Theorem items_sorted_stable (w w' : World) (env : Env) (prices : pyobj)
  (rec : ScoringRecord) :
  calc w env prices = (ret rec, w') ->
  exists l its,
    prices = PyList l /\
    price_items (calculator w) env (avg_price rec) 0 l = ret its /\
    map price its = l /\
    StronglySorted score_ge (items rec) /\
    forall s, filter (has_score s) (items rec) = filter (has_score s) its.
Proof.
  intros H. apply calc_inv in H as [H _].
  apply new_record_inv in H as (l & its & Hp & _ & _ & _ & Hi & Hs & _).
  exists l, its. rewrite Hs.
  split; [assumption|]. split; [assumption|].
  split; [now apply price_items_prices in Hi|].
  split.
  - apply sort_by_score_sorted. apply price_items_scores in Hi.
    eapply Forall_impl; [|exact Hi].
    intros it (s & Hit & _). now exists s.
  - intros s. apply sort_by_score_stable.
Qed.

Lemma items_sorted_stable_witness :
  exists rec w',
    calc example_world example_env example_prices = (ret rec, w') /\
    exists l its,
      example_prices = PyList l /\
      price_items (calculator example_world) example_env (avg_price rec) 0 l
        = ret its /\
      map price its = l /\
      StronglySorted score_ge (items rec) /\
      forall s, filter (has_score s) (items rec) = filter (has_score s) its.
Proof.
  eexists. eexists. split; [vm_compute; reflexivity|].
  eapply (items_sorted_stable example_world _ example_env example_prices).
  vm_compute. reflexivity.
Defined.

(** C7: when [calc] raises, whatever the exception, the result file is as
    it was before the call; when it returns, the file holds one more
    record, the one returned, after those it held. *)
Theorem log_untouched_or_appended (w : World) (env : Env) (prices : pyobj) :
  match calc w env prices with
  | (inl e, w') => w' = w
  | (inr rec, w') => records w' = (records w ++ [rec])%list
  end.
Proof.
  unfold calc. destruct (new_record (calculator w) env prices); reflexivity.
Qed.

(** C8, as the code has it: for every non-empty list of valid prices whose
    average [_calculate_average] can compute, if the configuration list is
    empty then [calc] raises the [ValueError] of the missing configuration,
    whose message sets it apart from the validation errors; no arithmetic
    runs for the item, whatever the price is, and nothing is returned or
    written. *)
Theorem no_config_raises (w : World) (env : Env) (l : list pyval) (avg : Dec) :
  l <> [] ->
  check_prices l = ret tt ->
  configs (calculator w) = [] ->
  _calculate_average l = ret avg ->
  calc w env (PyList l) = (raise (ValueError msg_no_config), w) /\
  ~ validation_error (ValueError msg_no_config) /\
  forall avg' k p,
    price_item (calculator w) env avg' k p = raise (ValueError msg_no_config).
Proof.
  intros Hne Hc Hcfg Ha.
  split; [|split; [apply no_config_not_validation|]].
  - unfold calc, new_record. destruct l as [| p l]; [congruence|].
    rewrite Hc, Ha. cbn [bind ret price_items].
    now rewrite (price_item_no_config _ _ _ _ _ Hcfg).
  - intros avg' k p. now apply price_item_no_config.
Qed.

Lemma no_config_raises_witness :
  [PyInt 5200] <> [] /\
  check_prices [PyInt 5200] = ret tt /\
  configs (mkCalculator 5385 []) = [] /\
  _calculate_average [PyInt 5200] = ret (Fin 5200.00) /\
  calc (mkWorld (mkCalculator 5385 []) []) example_env (PyList [PyInt 5200])
    = (raise (ValueError msg_no_config), mkWorld (mkCalculator 5385 []) []).
Proof.
  split; [discriminate|]. split; [reflexivity|]. split; [reflexivity|].
  split; [reflexivity|].
  apply (no_config_raises (mkWorld (mkCalculator 5385 []) []) example_env
           [PyInt 5200] (Fin 5200.00)); [discriminate | reflexivity ..].
Defined.

(** The claim C8 does not hold for every valid price list: the average is
    computed before any configuration is drawn, and for two prices of
    1e308 the float sum is infinite, so [calc] raises
    [decimal.InvalidOperation] although the configuration list is empty. *)
Lemma no_config_overflow :
  overflowing_prices <> [] /\
  check_prices overflowing_prices = ret tt /\
  configs (mkCalculator 5385 []) = [] /\
  fst (calc (mkWorld (mkCalculator 5385 []) []) example_env
         (PyList overflowing_prices)) = raise InvalidOperation /\
  InvalidOperation <> ValueError msg_no_config.
Proof.
  split; [discriminate|]. split; [vm_compute; reflexivity|].
  split; [reflexivity|]. split; [vm_compute; reflexivity | discriminate].
Qed.

(** C9: [calc] raises a validation error if and only if the list of prices
    is empty, holds an element that is not a number, or holds a negative
    one; this for every calculator and every environment, so before any
    arithmetic and before any item is scored. *)
Theorem validation_error_iff (w : World) (env : Env) (l : list pyval) :
  (exists e, fst (calc w env (PyList l)) = raise e /\ validation_error e) <->
  (l = [] \/ Exists non_numeric l \/ Exists negative_price l).
Proof.
  unfold calc. split.
  - intros (e & He & Hv).
    destruct l as [| p l]; [now left|]. right.
    destruct (check_prices_spec (p :: l)) as [[Hc _] | [_ Hx]]; [|assumption].
    exfalso.
    destruct (new_record (calculator w) env (PyList (p :: l))) as [e' | r] eqn:Hn;
      [|discriminate].
    cbn [fst] in He. injection He as ->.
    now apply (new_record_raise_valid (calculator w) env (p :: l) e).
  - intros [-> | Hx].
    + exists (ValueError msg_empty). split; [reflexivity|]. right. now left.
    + exists (ValueError msg_invalid_price). split; [|right; now right].
      destruct (check_prices_spec l) as [[Hc _] | [Hc _]].
      * exfalso. now apply (check_prices_valid l Hc).
      * unfold new_record. destruct l as [| p l]; [discriminate|].
        now rewrite Hc.
Qed.

(** C10: a call to [calc], returning or raising, leaves the calculator's
    [standard_price] and [configs] as they are, which is as [__init__]
    loaded them; the world after the call differs from the one before by
    the result file at most. *)
Theorem calc_frame (w : World) (env : Env) (prices : pyobj)
  (result_file : option (list ScoringRecord)) (config_file : option ConfigFile) :
  standard_price (calculator (snd (calc w env prices)))
    = standard_price (calculator w) /\
  configs (calculator (snd (calc w env prices))) = configs (calculator w) /\
  snd (calc w env prices)
    = mkWorld (calculator w) (records (snd (calc w env prices))) /\
  standard_price
    (calculator (snd (calc (__init__ result_file config_file) env prices)))
    = _load_standard_price config_file /\
  configs
    (calculator (snd (calc (__init__ result_file config_file) env prices)))
    = _load_configs config_file.
Proof.
  unfold calc.
  destruct (new_record (calculator w) env prices);
    destruct (new_record (calculator (__init__ result_file config_file)) env prices);
    destruct w; repeat split; reflexivity.
Qed.

(** * Further properties of the code *)

(** ** Rounding is monotone *)

Lemma round_half_up_mono (x y : Q) :
  x <= y -> (round_half_up x <= round_half_up y)%Z.
Proof.
  intros H. unfold round_half_up.
  destruct (negative x) eqn:Hx, (negative y) eqn:Hy.
  - enough (Qfloor (- y + (1 # 2)) <= Qfloor (- x + (1 # 2)))%Z by lia.
    apply Qfloor_resp_le. lra.
  - apply negative_true in Hx. apply negative_false in Hy.
    assert (0 <= Qfloor (- x + (1 # 2)))%Z
      by (apply Qfloor_lower; change (inject_Z 0) with 0; lra).
    assert (0 <= Qfloor (y + (1 # 2)))%Z
      by (apply Qfloor_lower; change (inject_Z 0) with 0; lra).
    lia.
  - apply negative_false in Hx. apply negative_true in Hy. lra.
  - apply Qfloor_resp_le. lra.
Qed.

Lemma Qmake_le (m n : Z) (scale : positive) : (m <= n)%Z -> m # scale <= n # scale.
Proof. intros H. unfold Qle. simpl. nia. Qed.

Lemma quantize_mono (scale : positive) (x y : Q) :
  x <= y -> quantize scale x <= quantize scale y.
Proof.
  intros H. apply Qmake_le, round_half_up_mono.
  pose proof (scale_pos scale). nra.
Qed.




(** ** The score in closed form *)











(** A benchmark price of zero makes the score fail: with
    [decimal.DivisionByZero] for a price other than zero, with
    [decimal.InvalidOperation] for a price of zero. *)
Theorem score_zero_benchmark (price : pyval) (p b : Q) :
  to_decimal price = ret (Fin p) ->
  b == 0 ->
  _calculate_score price (Fin b) =
    raise (if is_zero p then InvalidOperation else DivisionByZero).
Proof.
  intros Hp Hb. unfold _calculate_score. rewrite Hp. dec_step.
  apply is_zero_true in Hb. rewrite Hb.
  assert (E : is_zero (p + - b) = is_zero p).
  { apply is_zero_true in Hb.
    destruct (is_zero p) eqn:Hz.
    - apply is_zero_true. apply is_zero_true in Hz. lra.
    - apply is_zero_false. apply is_zero_false in Hz. lra. }
  rewrite E. destruct (is_zero p); reflexivity.
Qed.

Lemma score_zero_benchmark_witness :
  to_decimal (PyInt 5200) = ret (Fin 5200) /\
  0 == 0 /\
  _calculate_score (PyInt 5200) (Fin 0) = raise DivisionByZero.
Proof.
  split; [reflexivity|]. split; [reflexivity|].
  apply (score_zero_benchmark (PyInt 5200) 5200 0); reflexivity.
Defined.

(** ** The other calculators *)

Lemma _calculate_float_rate_finite (self : FractionCalculator) (price : pyval)
  (p : Q) :
  to_decimal price = ret (Fin p) ->
  _calculate_float_rate self price =
    if is_zero (standard_price self)
    then raise (if is_zero (p - standard_price self)
                then InvalidOperation else DivisionByZero)
    else ret (Fin (round4 ((p - standard_price self) / standard_price self))).
Proof.
  intros Hp. unfold _calculate_float_rate. rewrite Hp. dec_step.
  unfold Qminus. destruct (is_zero (standard_price self)); [|reflexivity].
  destruct (is_zero (p + - standard_price self)); reflexivity.
Qed.

(** The bid float rate of a finite price is
    [round4 ((price - standard_price) / standard_price)] whenever the
    standard price is not zero. *)
Theorem float_rate_formula (self : FractionCalculator) (price : pyval) (p : Q) :
  to_decimal price = ret (Fin p) ->
  ~ standard_price self == 0 ->
  _calculate_float_rate self price =
    ret (Fin (round4 ((p - standard_price self) / standard_price self))).
Proof.
  intros Hp Hs. rewrite (_calculate_float_rate_finite self price p Hp).
  apply is_zero_false in Hs. now rewrite Hs.
Qed.

Lemma float_rate_formula_witness :
  to_decimal (PyInt 5200) = ret (Fin 5200) /\
  ~ standard_price (calculator example_world) == 0 /\
  _calculate_float_rate (calculator example_world) (PyInt 5200) =
    ret (Fin (round4 ((5200 - 5385) / 5385))).
Proof.
  split; [reflexivity|]. split; [discriminate|].
  apply (float_rate_formula (calculator example_world) (PyInt 5200) 5200);
    [reflexivity | discriminate].
Defined.

(** With a standard price of zero no bid float rate is a number: the
    calculator raises, or passes on the [nan] of a [nan] price. *)
Lemma _calculate_float_rate_zero_standard (self : FractionCalculator)
  (price : pyval) (r : Dec) :
  standard_price self == 0 ->
  _calculate_float_rate self price = ret r -> r = NaN.
Proof.
  intros Hs. apply is_zero_true in Hs. unfold _calculate_float_rate.
  destruct (to_decimal price) as [e | [p | sp | ]]; dec_step; try discriminate.
  - rewrite Hs. destruct (is_zero (p + - standard_price self)); discriminate.
  - intros H. now injection H as <-.
Qed.


(** What the adjuster returns is a number, and asks for a rate that is not
    [nan]. *)
Lemma _calculate_final_float_a_inv (rate fa : Dec) (a : Q) :
  _calculate_final_float_a rate a = ret fa ->
  rate <> NaN /\ exists x, fa = Fin x /\ x <= round4 a.
Proof.
  unfold _calculate_final_float_a. cbv zeta.
  assert (H25 : round4 (a - 0.025) <= round4 a)
    by (apply quantize_mono; lra).
  assert (H50 : round4 (a - 0.05) <= round4 a)
    by (apply quantize_mono; lra).
  destruct rate as [r | s | ]; dec_step.
  - destruct (r ?= 0.08); [| |destruct (r ?= 0.15)];
      intros H; injection H as <-; (split; [discriminate|]);
      eexists; (split; [reflexivity|]); (exact H25 || exact H50 || apply Qle_refl).
  - destruct s; intros H; injection H as <-; (split; [discriminate|]);
      eexists; (split; [reflexivity|]); (exact H25 || exact H50 || apply Qle_refl).
  - discriminate.
Qed.






(** ** The average *)







(** ** The configuration that is drawn *)

Lemma _get_random_config_spec (self : FractionCalculator) (r : nat) :
  match _get_random_config self r with
  | None => configs self = []
  | Some config => In config (configs self)
  end.
Proof.
  unfold _get_random_config. destruct (configs self) as [| c l] eqn:E.
  - reflexivity.
  - destruct (nth_error (c :: l) (r mod List.length (c :: l))) as [config |] eqn:Hn.
    + now apply nth_error_In in Hn.
    + apply nth_error_None in Hn.
      pose proof (Nat.mod_upper_bound r (List.length (c :: l))) as Hb.
      simpl in Hb, Hn. lia.
Qed.

(** [_get_random_config] returns [None] exactly when there is no
    configuration, and otherwise one of the configurations of the list,
    whatever the random draw. *)
Theorem random_config_is_listed (self : FractionCalculator) (r : nat) :
  (_get_random_config self r = None <-> configs self = []) /\
  (forall config, _get_random_config self r = Some config ->
                  In config (configs self)).
Proof.
  pose proof (_get_random_config_spec self r) as H.
  split; [split|].
  - intros E. now rewrite E in H.
  - intros E. unfold _get_random_config. now rewrite E.
  - intros config E. now rewrite E in H.
Qed.

(** ** What a returned record holds *)

Lemma _calculate_score_inv (price : pyval) (benchmark_price sc : Dec) :
  _calculate_score price benchmark_price = ret sc ->
  exists p b,
    to_decimal price = ret (Fin p) /\ benchmark_price = Fin b /\ ~ b == 0.
Proof.
  unfold _calculate_score.
  destruct (to_decimal price) as [e | [p | sp | ]]; dec_step; [discriminate | | | ].
  - destruct benchmark_price as [b | sb | ]; dec_step; try discriminate.
    destruct (is_zero b) eqn:Hb.
    + destruct (is_zero (p + - b)); discriminate.
    + intros _. exists p, b. repeat split. now apply is_zero_false.
  - destruct benchmark_price as [b | sb | ]; dec_step; try discriminate.
    destruct (Bool.eqb sp (negb sb)); discriminate.
  - destruct benchmark_price as [b | sb | ]; dec_step; discriminate.
Qed.

Lemma _calculate_float_rate_inv (self : FractionCalculator) (price : pyval)
  (r : Dec) :
  _calculate_float_rate self price = ret r -> r = NaN \/ exists x, r = Fin x.
Proof.
  unfold _calculate_float_rate.
  destruct (to_decimal price) as [e | [p | sp | ]]; dec_step; try discriminate.
  - destruct (is_zero (standard_price self)).
    + destruct (is_zero (p + - standard_price self)); discriminate.
    + intros H. injection H as <-. right. now eexists.
  - intros H. injection H as <-. now left.
Qed.

Lemma _calculate_benchmark_price_inv (self : FractionCalculator) (avg : Dec)
  (config : Config) (fa b : Q) :
  _calculate_benchmark_price self avg config (Fin fa) = ret (Fin b) ->
  exists a, avg = Fin a.
Proof.
  destruct avg as [a | s | ]; [now exists a | | ].
  - unfold _calculate_benchmark_price. dec_step.
    destruct (is_zero (1 + float_c3 config)); [discriminate|].
    destruct (is_zero (weight_b config)); discriminate.
  - unfold _calculate_benchmark_price. dec_step. discriminate.
Qed.

Lemma price_item_finite (self : FractionCalculator) (env : Env) (avg : Dec)
  (k : nat) (p : pyval) (it : PriceItem) :
  price_item self env avg k p = ret it ->
  finite_item it /\ (exists a, avg = Fin a) /\
  _calculate_float_rate self (price it) = ret (bid_float_rate it).
Proof.
  intros H.
  apply price_item_inv in H as (c & _ & Hr & Hf & Hb & Hs & Hp & _).
  subst p.
  apply _calculate_score_inv in Hs as Hs'. destruct Hs' as (x & b & Hx & Hbb & Hb0).
  apply _calculate_score_range in Hs as (s & Hsc & _).
  apply _calculate_final_float_a_inv in Hf as Hf'.
  destruct Hf' as (Hnan & fa & Hfa & _).
  apply _calculate_float_rate_inv in Hr as Hr'.
  destruct Hr' as [Hr' | [r Hr']]; [contradiction|].
  rewrite Hfa, Hbb in Hb.
  apply _calculate_benchmark_price_inv in Hb as Ha.
  split; [|split; assumption].
  exists x, r, fa, b, s. repeat split; assumption.
Qed.

Lemma price_items_finite (self : FractionCalculator) (env : Env) (avg : Dec)
  (l : list pyval) (k : nat) (its : list PriceItem) :
  price_items self env avg k l = ret its ->
  Forall (fun it => finite_item it /\ (exists a, avg = Fin a) /\
            _calculate_float_rate self (price it) = ret (bid_float_rate it)) its.
Proof.
  intros H. apply price_items_inv in H.
  induction H as [| p it l its [j Hj] _ IH]; constructor; [|assumption].
  now apply price_item_finite in Hj.
Qed.

Lemma price_items_length (self : FractionCalculator) (env : Env) (avg : Dec)
  (l : list pyval) (k : nat) (its : list PriceItem) :
  price_items self env avg k l = ret its -> List.length its = List.length l.
Proof.
  intros H. apply price_items_prices in H. rewrite <- H. now rewrite length_map.
Qed.

(** A returned record holds one item for each price of the list: the
    prices of its items are those of the list, rearranged. *)
Theorem one_item_per_price (w w' : World) (env : Env) (prices : pyobj)
  (rec : ScoringRecord) :
  calc w env prices = (ret rec, w') ->
  exists l,
    prices = PyList l /\
    Permutation (map price (items rec)) l /\
    List.length (items rec) = List.length l.
Proof.
  intros H. apply calc_inv in H as [H _].
  apply new_record_inv in H as (l & its & Hp & _ & _ & _ & Hi & Hs & _).
  exists l. split; [assumption|]. rewrite Hs.
  pose proof (sort_by_score_perm its) as Hperm.
  split.
  - rewrite <- (price_items_prices _ _ _ _ _ _ Hi). now apply Permutation_map.
  - rewrite (Permutation_length Hperm). now apply price_items_length in Hi.
Qed.

Lemma one_item_per_price_witness :
  exists rec w',
    calc example_world example_env example_prices = (ret rec, w') /\
    exists l,
      example_prices = PyList l /\
      Permutation (map price (items rec)) l /\
      List.length (items rec) = List.length l.
Proof.
  eexists. eexists. split; [vm_compute; reflexivity|].
  eapply (one_item_per_price example_world _ example_env example_prices).
  vm_compute. reflexivity.
Defined.

(** Every item of a returned record carries what the calculators give for
    its own price under one configuration of the calculator's list: that
    configuration's name, the float rate of the price, the final float_a of
    that rate, the benchmark of the record's average, and the score of the
    price against that benchmark. *)
Theorem items_follow_pipeline (w w' : World) (env : Env) (prices : pyobj)
  (rec : ScoringRecord) :
  calc w env prices = (ret rec, w') ->
  forall it, In it (items rec) ->
    exists config,
      In config (configs (calculator w)) /\
      config_name it = name config /\
      _calculate_float_rate (calculator w) (price it) = ret (bid_float_rate it) /\
      _calculate_final_float_a (bid_float_rate it) (float_a config)
        = ret (final_float_a it) /\
      _calculate_benchmark_price (calculator w) (avg_price rec) config
        (final_float_a it) = ret (benchmark_price it) /\
      _calculate_score (price it) (benchmark_price it) = ret (score it).
Proof.
  intros H it Hin. apply calc_inv in H as [H _].
  apply new_record_inv in H as (l & its & _ & _ & _ & _ & Hi & Hs & _).
  rewrite Hs in Hin.
  apply (Permutation_in _ (sort_by_score_perm its)) in Hin.
  apply price_items_inv in Hi. clear Hs.
  induction Hi as [| p it' l' its' [j Hj] _ IH]; [contradiction|].
  destruct Hin as [<- | Hin]; [|now apply IH].
  apply price_item_inv in Hj as (c & Hc & Hr & Hf & Hb & Hsc & Hp & Hn).
  exists c. subst p.
  pose proof (_get_random_config_spec (calculator w) (draw env j)) as Hm.
  rewrite Hc in Hm. repeat split; assumption.
Qed.

Lemma items_follow_pipeline_witness :
  exists rec w',
    calc example_world example_env example_prices = (ret rec, w') /\
    forall it, In it (items rec) ->
      exists config,
        In config (configs (calculator example_world)) /\
        config_name it = name config /\
        _calculate_float_rate (calculator example_world) (price it)
          = ret (bid_float_rate it) /\
        _calculate_final_float_a (bid_float_rate it) (float_a config)
          = ret (final_float_a it) /\
        _calculate_benchmark_price (calculator example_world) (avg_price rec)
          config (final_float_a it) = ret (benchmark_price it) /\
        _calculate_score (price it) (benchmark_price it) = ret (score it).
Proof.
  eexists. eexists. split; [vm_compute; reflexivity|].
  eapply (items_follow_pipeline example_world _ example_env example_prices).
  vm_compute. reflexivity.
Defined.

(** A returned record holds numbers only: its average is finite, and so
    are the price, the float rate, the final float_a, the benchmark and the
    score of every item; no benchmark is zero.  A [nan] or infinite price
    passes the validation but never reaches a record. *)
Theorem records_are_finite (w w' : World) (env : Env) (prices : pyobj)
  (rec : ScoringRecord) :
  calc w env prices = (ret rec, w') ->
  (exists a, avg_price rec = Fin a) /\
  Forall finite_item (items rec).
Proof.
  intros H. apply calc_inv in H as [H _].
  apply new_record_inv in H as (l & its & _ & Hne & _ & _ & Hi & Hs & _).
  pose proof (price_items_length _ _ _ _ _ _ Hi) as Hlen.
  apply price_items_finite in Hi.
  split.
  - destruct its as [| it its]; [destruct l; [congruence | discriminate]|].
    inversion Hi as [| ? ? (_ & Ha & _) _]. exact Ha.
  - rewrite Hs. apply Permutation_Forall with its.
    + apply Permutation_sym, sort_by_score_perm.
    + eapply Forall_impl; [|exact Hi]. now intros it (Hf & _).
Qed.

Lemma records_are_finite_witness :
  exists rec w',
    calc example_world example_env example_prices = (ret rec, w') /\
    (exists a, avg_price rec = Fin a) /\
    Forall finite_item (items rec).
Proof.
  eexists. eexists. split; [vm_compute; reflexivity|].
  eapply (records_are_finite example_world _ example_env example_prices).
  vm_compute. reflexivity.
Defined.

(** ** Calculators that never return *)

Lemma new_record_no_config (self : FractionCalculator) (env : Env)
  (prices : pyobj) :
  configs self = [] -> exists e, new_record self env prices = raise e.
Proof.
  intros Hc. unfold new_record.
  destruct prices as [l | v]; [|now eexists].
  destruct l as [| p l]; [now eexists|].
  destruct (check_prices (p :: l)) as [e | []]; [now exists e|].
  destruct (_calculate_average (p :: l)) as [e | avg]; [now exists e|].
  cbn [bind price_items]. rewrite (price_item_no_config _ _ _ _ _ Hc).
  now eexists.
Qed.

(** With an empty configuration list [calc] never returns a record,
    whatever it is given, and leaves the result file as it is. *)
Theorem no_config_never_returns (w : World) (env : Env) (prices : pyobj) :
  configs (calculator w) = [] ->
  exists e, calc w env prices = (raise e, w).
Proof.
  intros Hc. unfold calc.
  destruct (new_record_no_config (calculator w) env prices Hc) as [e He].
  rewrite He. now exists e.
Qed.

Lemma no_config_never_returns_witness :
  configs (calculator (mkWorld (mkCalculator 5385 []) [])) = [] /\
  exists e,
    calc (mkWorld (mkCalculator 5385 []) []) example_env example_prices
      = (raise e, mkWorld (mkCalculator 5385 []) []).
Proof.
  split; [reflexivity|].
  apply (no_config_never_returns (mkWorld (mkCalculator 5385 []) [])
           example_env example_prices).
  reflexivity.
Defined.


(** With a standard price of zero [calc] never returns a record either:
    no bid float rate can be computed. *)
Theorem zero_standard_never_returns (w : World) (env : Env) (prices : pyobj) :
  standard_price (calculator w) == 0 ->
  exists e, calc w env prices = (raise e, w).
Proof.
  intros Hz. unfold calc.
  destruct (new_record (calculator w) env prices) as [e | rec] eqn:Hn;
    [now exists e|].
  exfalso.
  apply new_record_inv in Hn as (l & its & _ & Hne & _ & _ & Hi & _).
  pose proof (price_items_length _ _ _ _ _ _ Hi) as Hlen.
  apply price_items_finite in Hi.
  destruct its as [| it its]; [destruct l; [congruence | discriminate]|].
  inversion Hi as [| ? ? ((p & r & fa & b & s & _ & Hr & _) & _ & Hrate) _].
  apply (_calculate_float_rate_zero_standard _ _ _ Hz) in Hrate. congruence.
Qed.

Lemma zero_standard_never_returns_witness :
  standard_price (calculator (mkWorld (mkCalculator 0 [config_A]) [])) == 0 /\
  exists e,
    calc (mkWorld (mkCalculator 0 [config_A]) []) example_env example_prices
      = (raise e, mkWorld (mkCalculator 0 [config_A]) []).
Proof.
  split; [reflexivity|].
  apply (zero_standard_never_returns (mkWorld (mkCalculator 0 [config_A]) [])
           example_env example_prices).
  reflexivity.
Defined.

(** ** Successive calls *)

Lemma new_record_ranked (self : FractionCalculator) (env : Env)
  (prices : pyobj) (rec : ScoringRecord) :
  new_record self env prices = ret rec -> ranked rec.
Proof.
  intros H. apply new_record_inv in H as (l & its & _ & _ & _ & _ & Hi & Hs & _).
  apply price_items_scores in Hi. unfold ranked. rewrite Hs. split.
  - apply sort_by_score_sorted. eapply Forall_impl; [|exact Hi].
    intros it (s & Hit & _). now exists s.
  - apply Permutation_Forall with its; [|assumption].
    apply Permutation_sym, sort_by_score_perm.
Qed.

(** Over any number of calls the result file only grows: after the calls
    it holds the records it held before, followed by the records the calls
    returned, in the order of the calls; the calculator's standard price
    and configurations are those of the start. *)
Theorem result_file_only_grows (calls : list (Env * pyobj)) (w : World) :
  records (calc_all w calls) = (records w ++ returned w calls)%list /\
  calculator (calc_all w calls) = calculator w /\
  (List.length (returned w calls) <= List.length calls)%nat.
Proof.
  revert w. induction calls as [| [env prices] calls IH]; intros w.
  - cbn. rewrite app_nil_r. repeat split; auto.
  - cbn [calc_all returned].
    destruct (IH (snd (calc w env prices))) as (Hr & Hc & Hl).
    unfold calc in *.
    destruct (new_record (calculator w) env prices) as [e | rec] eqn:Hn;
      cbn [fst snd] in *.
    + repeat split; try assumption. cbn [List.length]. lia.
    + cbn [records calculator] in *. rewrite Hr, <- app_assoc.
      repeat split; try assumption. cbn [List.length]. lia.
Qed.

(** If every record of the result file is ranked by score, with scores
    from 0 to 100, then so is every record of the file after any number of
    calls. *)
Theorem records_stay_ranked (calls : list (Env * pyobj)) (w : World) :
  Forall ranked (records w) -> Forall ranked (records (calc_all w calls)).
Proof.
  revert w. induction calls as [| [env prices] calls IH]; intros w Hw.
  - exact Hw.
  - cbn [calc_all]. apply IH. unfold calc.
    destruct (new_record (calculator w) env prices) as [e | rec] eqn:Hn;
      cbn [snd records]; [assumption|].
    apply Forall_app. split; [assumption|].
    constructor; [|constructor]. now apply new_record_ranked in Hn.
Qed.

Lemma records_stay_ranked_witness :
  Forall ranked (records example_world) /\
  Forall ranked
    (records (calc_all example_world
                [(example_env, example_prices); (example_env, PyList []);
                 (example_env, example_prices)])).
Proof.
  split; [constructor|].
  apply (records_stay_ranked
           [(example_env, example_prices); (example_env, PyList []);
            (example_env, example_prices)] example_world).
  constructor.
Defined.

(** ** When [calc] returns *)




Section Returns.

Variable self : FractionCalculator.
Variable env : Env.
Variable avg : Q.

Hypothesis standard_ok : 1 <= standard_price self.
Hypothesis configs_ok :
  Forall (fun c => 0 <= weight_b c <= 1 /\ 0 <= float_c3 c /\ float_a c <= 1 # 2)
    (configs self).
Hypothesis configs_some : configs self <> [].
Hypothesis avg_ok : 1 <= avg.




End Returns.



(** ** The price inputs of the web page *)

Lemma pop_length {A : Type} (idx : nat) (l : list A) :
  (idx < List.length l)%nat ->
  List.length (pop idx l) = (List.length l - 1)%nat.
Proof.
  intros H. unfold pop. rewrite length_app, length_firstn, length_skipn. lia.
Qed.

Lemma handle_change_length (i : nat) (x : option pyval) (p : list (option pyval)) :
  List.length (handle_change i x p) = List.length p.
Proof.
  unfold handle_change. destruct (Nat.ltb_spec i (List.length p)); [|reflexivity].
  rewrite !length_app, length_firstn, length_skipn. cbn [List.length]. lia.
Qed.

Lemma ui_step_in_step (st : list (option pyval) * Z) (ev : ui_event) :
  in_step st -> in_step (ui_step st ev).
Proof.
  destruct st as [prices n]. unfold in_step. cbn [fst snd]. intros [Hl Hn].
  destruct ev as [| i | i x]; cbn [ui_step].
  - unfold handle_add. destruct (Z.ltb_spec n 50); cbn [fst snd].
    + rewrite length_app. cbn [List.length]. lia.
    + lia.
  - unfold handle_remove.
    destruct (Z.ltb_spec 1 n), (Z.leb_spec 0 (Z.of_nat i)),
      (Z.ltb_spec (Z.of_nat i) (Z.of_nat (List.length prices)));
      cbn [andb fst snd]; try lia.
    rewrite Nat2Z.id, pop_length by lia. lia.
  - cbn [fst snd]. rewrite handle_change_length. lia.
Qed.

(** Whatever the user clicks and types, the list of inputs has as many
    entries as the count says, at least 1 and at most 50: the last input is
    never removed and a 51st never added. *)
Theorem inputs_stay_in_step (events : list ui_event) :
  in_step (fold_left ui_step events ui_initial).
Proof.
  assert (H : forall st, in_step st -> in_step (fold_left ui_step events st)).
  { induction events as [| ev events IH]; intros st Hst; [exact Hst|].
    cbn [fold_left]. apply IH. now apply ui_step_in_step. }
  apply H. unfold in_step, ui_initial. cbn. lia.
Qed.

(** Editing the input at position [i] sets that entry and no other, and
    keeps the length of the list; beyond the end of the list it changes
    nothing. *)
Theorem edit_sets_one_entry (i : nat) (x : option pyval)
  (p : list (option pyval)) (j : nat) :
  List.length (handle_change i x p) = List.length p /\
  nth_error (handle_change i x p) j =
    if ((j =? i) && (i <? List.length p))%nat%bool then Some x
    else nth_error p j.
Proof.
  split; [apply handle_change_length|].
  unfold handle_change.
  destruct (Nat.ltb_spec i (List.length p)) as [Hi | Hi];
    [|now rewrite andb_false_r].
  rewrite andb_true_r.
  destruct (Nat.eqb_spec j i) as [-> | Hji].
  - rewrite nth_error_app2; rewrite length_firstn; [|lia].
    replace (i - Nat.min i (List.length p))%nat with 0%nat by lia. reflexivity.
  - destruct (Nat.lt_ge_cases j i) as [Hlt | Hge].
    + rewrite nth_error_app1 by (rewrite length_firstn; lia).
      rewrite nth_error_firstn.
      destruct (Nat.ltb_spec j i); [reflexivity | lia].
    + rewrite nth_error_app2; rewrite length_firstn; [|lia].
      replace (Nat.min i (List.length p)) with i by lia.
      destruct (j - i)%nat as [| d] eqn:Hd; [lia|].
      cbn [app nth_error]. rewrite nth_error_skipn. f_equal. lia.
Qed.

(** Adding an input and then removing the one just added gives the list
    back, with a count of at least 1. *)
Theorem add_then_remove (prices : list (option pyval)) (num_inputs : Z) :
  remove_price_input (fst (add_price_input prices num_inputs))
    (Z.of_nat (List.length prices)) (snd (add_price_input prices num_inputs))
  = (prices, Z.max 1 num_inputs).
Proof.
  unfold add_price_input, remove_price_input. cbn [fst snd].
  rewrite length_app. cbn [List.length].
  destruct (Z.leb_spec 0 (Z.of_nat (List.length prices))); [|lia].
  destruct (Z.ltb_spec (Z.of_nat (List.length prices))
              (Z.of_nat (List.length prices + 1))); [|lia].
  cbn [andb]. rewrite Nat2Z.id. unfold pop.
  rewrite firstn_app, firstn_all, Nat.sub_diag. cbn [firstn].
  rewrite skipn_all2 by (rewrite length_app; cbn [List.length]; lia).
  rewrite !app_nil_r. f_equal. lia.
Qed.

Lemma nth_error_map_seq {A : Type} (f : nat -> A) (n i : nat) :
  (i < n)%nat -> nth_error (map f (seq 0 n)) i = Some (f i).
Proof.
  intros H. rewrite nth_error_map, nth_error_seq.
  destruct (Nat.ltb_spec i n); [reflexivity | lia].
Qed.

(** [update_ui_state] always returns 151 updates, one for each of the 50
    rows, 50 inputs and 50 buttons and one for the counter.  Row [i] is
    made visible exactly when [i] is below the count, and a visible input
    is given the entry of the list at its position, blank beyond the end of
    the list, with the label of its rank. *)
Theorem updates_show_the_state (prices : list (option pyval)) (num_inputs : Z)
  (i : nat) :
  (i < 50)%nat ->
  List.length (update_ui_state prices num_inputs) = 151%nat /\
  nth_error (update_ui_state prices num_inputs) i
    = Some (mkUpdate (Some (Z.of_nat i <? num_inputs)%Z) None None) /\
  nth_error (update_ui_state prices num_inputs) (50 + i)
    = Some (if (Z.of_nat i <? num_inputs)%Z
            then mkUpdate (Some true) (Some (box_value prices i))
                   (Some ("投标价格 " ++ str_of_nat (i + 1))%string)
            else mkUpdate (Some false) None None).
Proof.
  intros Hi. unfold update_ui_state. cbv zeta.
  split; [now rewrite !length_app, !length_map, !length_seq|].
  split.
  - rewrite nth_error_app1 by (rewrite length_map, length_seq; lia).
    now rewrite nth_error_map_seq.
  - rewrite nth_error_app2 by (rewrite length_map, length_seq; lia).
    rewrite length_map, length_seq.
    replace (50 + i - 50)%nat with i by lia.
    rewrite nth_error_app1 by (rewrite length_map, length_seq; lia).
    now rewrite nth_error_map_seq.
Qed.

Lemma updates_show_the_state_witness :
  (1 < 50)%nat /\
  nth_error (update_ui_state [Some (PyInt 5200); None] 2) 51
    = Some (mkUpdate (Some true) (Some Blank) (Some "投标价格 2"%string)).
Proof.
  split; [lia|].
  apply (updates_show_the_state [Some (PyInt 5200); None] 2 1). lia.
Defined.

(** ** The command line *)

Lemma calc_appends (w : World) (env : Env) (prices : pyobj) :
  records (snd (calc w env prices))
  = (records w ++ match fst (calc w env prices) with
                  | inr rec => [rec]
                  | inl _ => []
                  end)%list.
Proof.
  unfold calc. destruct (new_record (calculator w) env prices); cbn [fst snd records].
  - now rewrite app_nil_r.
  - reflexivity.
Qed.

Lemma parse_prices_numbers (float_of_str : string -> option spec_float)
  (args : list string) (prices : list pyval) :
  parse_prices float_of_str args = Some prices ->
  Forall2 (fun arg p => exists f, float_of_str arg = Some f /\ p = PyFloat f)
    args prices.
Proof.
  revert prices. induction args as [| arg args IH]; intros prices H.
  - injection H as <-. constructor.
  - cbn [parse_prices] in H.
    destruct (float_of_str arg) as [f |] eqn:Hf; [|discriminate].
    destruct (parse_prices float_of_str args) as [l |]; [|discriminate].
    injection H as <-. constructor; [now exists f | now apply IH].
Qed.

(** [parse_prices] returns a list exactly when [float] accepts every
    argument, and the list then holds the floats of the arguments, one for
    each and in their order; one argument [float] refuses makes it return
    [None], whatever the others are. *)
Theorem parse_prices_spec (float_of_str : string -> option spec_float)
  (args : list string) (prices : list pyval) :
  parse_prices float_of_str args = Some prices <->
  Forall2 (fun arg p => exists f, float_of_str arg = Some f /\ p = PyFloat f)
    args prices.
Proof.
  split; [apply parse_prices_numbers|].
  induction 1 as [| arg p args prices (f & Hf & ->) _ IH]; [reflexivity|].
  cbn [parse_prices]. now rewrite Hf, IH.
Qed.

(** A price that came through [parse_prices] is a float, so of the
    validation errors of [calc] the command line can meet only the one for
    a negative price (the empty list apart, which [process_command] turns
    away itself). *)
Theorem command_line_rejects_negatives
  (float_of_str : string -> option spec_float) (w : World) (env : Env)
  (args : list string) (prices : list pyval) (e : exn) :
  parse_prices float_of_str args = Some prices ->
  fst (calc w env (PyList prices)) = raise e ->
  validation_error e ->
  prices = [] \/
  (e = ValueError msg_invalid_price /\ Exists negative_price prices).
Proof.
  intros Hp He Hv.
  destruct prices as [| p l]; [now left|]. right.
  apply parse_prices_numbers in Hp.
  assert (Hn : Forall (fun p => is_number p = true) (p :: l)).
  { clear He. induction Hp as [| a q args qs (f & _ & ->) _ IH]; constructor.
    - reflexivity.
    - exact IH. }
  unfold calc in He.
  destruct (new_record (calculator w) env (PyList (p :: l))) as [e' | r] eqn:Hr;
    [|discriminate].
  cbn [fst] in He. injection He as ->.
  destruct (check_prices_spec (p :: l)) as [[Hc _] | [Hc [Hx | Hx]]].
  - exfalso. now apply (new_record_raise_valid (calculator w) env (p :: l) e).
  - exfalso. apply Exists_exists in Hx as (q & Hq & Hx).
    rewrite Forall_forall in Hn. specialize (Hn q Hq).
    unfold non_numeric in Hx. congruence.
  - split; [|exact Hx].
    unfold new_record in Hr. rewrite Hc in Hr. cbn [bind raise] in Hr.
    now injection Hr as <-.
Qed.

Lemma command_line_rejects_negatives_witness :
  Exists negative_price [PyFloat (Float.of_Q (-1))].
Proof.
  destruct (command_line_rejects_negatives
              (fun _ => Some (Float.of_Q (-1))) example_world example_env
              ["-1"%string] [PyFloat (Float.of_Q (-1))]
              (ValueError msg_invalid_price)
              eq_refl eq_refl (or_intror (or_intror eq_refl)))
    as [H | [_ H]]; [discriminate | exact H].
Defined.

(** Whatever the arguments are, [process_command] leaves the configuration
    file as it is and adds at most one record to the result file, after the
    records that were there; a record it adds is ranked, with scores from 0
    to 100. *)
Theorem command_appends_at_most_one
  (float_of_str : string -> option spec_float)
  (format_number : string -> pyval -> result string)
  (format_float : string -> Dec -> string) (str_of_exn : exn -> string)
  (env : Env) (disk : Disk) (args : list string) :
  let disk' :=
    snd (process_command float_of_str format_number format_float str_of_exn
           env disk args) in
  config_file disk' = config_file disk /\
  exists new,
    stored disk' = (stored disk ++ new)%list /\
    (List.length new <= 1)%nat /\
    Forall ranked new.
Proof.
  cbv zeta. unfold process_command.
  assert (Hsame : config_file disk = config_file disk /\
                  exists new, stored disk = (stored disk ++ new)%list /\
                    (List.length new <= 1)%nat /\ Forall ranked new).
  { split; [reflexivity|]. exists []. rewrite app_nil_r.
    repeat split; [simpl; lia | constructor]. }
  destruct args as [| command rest]; [exact Hsame|].
  destruct (negb (command =? "calc")%string); [exact Hsame|].
  destruct (parse_prices float_of_str rest) as [[| p l] |]; try exact Hsame.
  set (w := __init__ (result_file disk) (config_file disk)).
  pose proof (calc_appends w env (PyList (p :: l))) as Ha.
  destruct (calc w env (PyList (p :: l))) as [r w'] eqn:Hc.
  cbn [fst snd] in Ha.
  assert (Hd : config_file (mkDisk (Some (records w')) (config_file disk))
               = config_file disk /\
               exists new,
                 stored (mkDisk (Some (records w')) (config_file disk))
                 = (stored disk ++ new)%list /\
                 (List.length new <= 1)%nat /\ Forall ranked new).
  { split; [reflexivity|].
    unfold stored at 1. cbn [result_file _ensure_result_file]. rewrite Ha.
    destruct r as [e | rec].
    - exists []. repeat split; [simpl; lia | constructor].
    - exists [rec]. repeat split; [simpl; lia|].
      constructor; [|constructor].
      apply calc_inv in Hc as [Hc _].
      now apply new_record_ranked in Hc. }
  destruct (bind r (format_result format_number format_float)); exact Hd.
Qed.

(** Given [calc] and at least one argument, all of them numbers,
    [process_command] leaves a result file that holds the earlier records
    followed by the record of [calc], if [calc] returned one: the file is
    created when it was missing, also when [calc] raises, and the record is
    kept also when printing it fails. *)
Theorem command_saves_the_record
  (float_of_str : string -> option spec_float)
  (format_number : string -> pyval -> result string)
  (format_float : string -> Dec -> string) (str_of_exn : exn -> string)
  (env : Env) (disk : Disk) (rest : list string) (prices : list pyval) :
  parse_prices float_of_str rest = Some prices ->
  prices <> [] ->
  result_file
    (snd (process_command float_of_str format_number format_float str_of_exn
            env disk ("calc"%string :: rest)))
  = Some (stored disk ++
          match fst (calc (__init__ (result_file disk) (config_file disk)) env
                       (PyList prices)) with
          | inr rec => [rec]
          | inl _ => []
          end)%list.
Proof.
  intros Hp Hne. unfold process_command. cbn [String.eqb Ascii.eqb Bool.eqb negb].
  rewrite Hp. destruct prices as [| p l]; [congruence|].
  set (w := __init__ (result_file disk) (config_file disk)).
  pose proof (calc_appends w env (PyList (p :: l))) as Ha.
  destruct (calc w env (PyList (p :: l))) as [r w'].
  cbn [fst snd] in Ha |- *.
  destruct (bind r (format_result format_number format_float));
    cbn [snd result_file]; now rewrite Ha.
Qed.

Lemma command_saves_the_record_witness :
  result_file
    (snd (process_command (fun _ => Some (Float.of_Q 5200))
            (fun _ _ => raise OverflowError) (fun _ _ => ""%string)
            (fun _ => ""%string) example_env
            (mkDisk None (Some (mkConfigFile (Some 5385) (Some [config_A]))))
            ["calc"; "5200"]%string))
  = Some (stored (mkDisk None (Some (mkConfigFile (Some 5385) (Some [config_A]))))
          ++ match fst (calc (__init__ None
                                (Some (mkConfigFile (Some 5385) (Some [config_A]))))
                          example_env (PyList [PyFloat (Float.of_Q 5200)])) with
             | inr rec => [rec]
             | inl _ => []
             end)%list.
Proof.
  apply (command_saves_the_record (fun _ => Some (Float.of_Q 5200))
           (fun _ _ => raise OverflowError) (fun _ _ => ""%string)
           (fun _ => ""%string) example_env
           (mkDisk None (Some (mkConfigFile (Some 5385) (Some [config_A]))))
           ["5200"%string] [PyFloat (Float.of_Q 5200)]).
  - reflexivity.
  - discriminate.
Defined.

(** Without [calc] as its first argument, with an argument that is not a
    number, or with no price at all, [process_command] prints one of its
    three messages and writes nothing: a missing result file stays
    missing. *)
Theorem bad_command_writes_nothing
  (float_of_str : string -> option spec_float)
  (format_number : string -> pyval -> result string)
  (format_float : string -> Dec -> string) (str_of_exn : exn -> string)
  (env : Env) (disk : Disk) (args : list string) :
  hd_error args <> Some "calc"%string \/
  parse_prices float_of_str (tl args) = None \/
  tl args = [] ->
  snd (process_command float_of_str format_number format_float str_of_exn
         env disk args) = disk /\
  In (fst (process_command float_of_str format_number format_float str_of_exn
             env disk args))
    [usage; "错误: 价格必须是有效的数字"%string; "错误: 请至少输入一个价格"%string].
Proof.
  intros H. unfold process_command.
  destruct args as [| command rest]; [split; [reflexivity | now left]|].
  cbn [hd_error tl] in H.
  destruct (String.eqb_spec command "calc") as [-> | Hc]; cbn [negb].
  - destruct H as [H | [H | H]]; [congruence | |].
    + rewrite H. split; [reflexivity | right; now left].
    + rewrite H. split; [reflexivity | right; right; now left].
  - split; [reflexivity | now left].
Qed.

Lemma bad_command_writes_nothing_witness :
  snd (process_command (fun _ => None) (fun _ _ => raise OverflowError)
         (fun _ _ => ""%string) (fun _ => ""%string) example_env
         (mkDisk None None) ["calc"; "abc"]%string) = mkDisk None None.
Proof.
  apply (bad_command_writes_nothing (fun _ => None)
           (fun _ _ => raise OverflowError) (fun _ _ => ""%string)
           (fun _ => ""%string) example_env (mkDisk None None)
           ["calc"; "abc"]%string).
  right. left. reflexivity.
Defined.

(** ** The calculation behind the page *)

Lemma detail_rows_spec (format_number : string -> pyval -> result string)
  (format_float : string -> Dec -> string) (l : list PriceItem) :
  forall (done : nat) (rows : list (list (string * cell))),
    detail_rows format_number format_float done l = ret rows ->
    List.length rows = List.length l /\
    forall i row, nth_error rows i = Some row ->
      nth_error row 0 = Some ("序号"%string, CInt (Z.of_nat (done + i) + 1)).
Proof.
  induction l as [| item l IH]; intros done rows H.
  - injection H as <-. split; [reflexivity|]. intros [| i] row; discriminate.
  - cbn [detail_rows] in H.
    apply bind_ret_inv in H as (price & _ & H).
    cbv zeta in H.
    apply bind_ret_inv in H as (more & Hm & H).
    injection H as <-. apply IH in Hm as [Hl Hn]. split.
    + cbn [List.length]. now rewrite Hl.
    + intros [| i] row Hr.
      * injection Hr as <-. cbn [nth_error]. now rewrite Nat.add_0_r.
      * cbn [nth_error] in Hr. apply Hn in Hr. rewrite Hr.
        do 3 f_equal. lia.
Qed.

(** [calculate] changes the result file as [calc] does on the inputs that
    are not blank, in their order: it adds the record when [calc] returns
    one, also when formatting it then fails, and nothing otherwise; with
    blank inputs only it does not call [calc]. *)
Theorem calculate_as_calc
  (format_number : string -> pyval -> result string)
  (format_float : string -> Dec -> string) (str_of_exn : exn -> string)
  (w : World) (env : Env) (prices : list (option pyval)) :
  snd (calculate format_number format_float str_of_exn w env prices)
  = snd (calc w env (PyList (not_none prices))) /\
  (not_none prices = [] ->
   calculate format_number format_float str_of_exn w env prices
   = ((EmptyFrame, EmptyFrame), w)).
Proof.
  unfold calculate. destruct (not_none prices) as [| p l].
  - split; reflexivity.
  - split; [|discriminate].
    destruct (calc w env (PyList (p :: l))) as [r w'].
    now destruct (bind r (ui_format_result format_number format_float)).
Qed.

(** When [calculate] returns a table of details built from rows, the table
    has one row for each input that is not blank, the rows are numbered
    from 1 in their order, and the summary counts as many prices. *)
Theorem calculate_rows
  (format_number : string -> pyval -> result string)
  (format_float : string -> Dec -> string) (str_of_exn : exn -> string)
  (w : World) (env : Env) (prices : list (option pyval))
  (summary : DataFrame) (rows : list (list (string * cell))) :
  fst (calculate format_number format_float str_of_exn w env prices)
  = (summary, FromRows rows) ->
  List.length rows = List.length (not_none prices) /\
  (forall i row, nth_error rows i = Some row ->
     nth_error row 0 = Some ("序号"%string, CInt (Z.of_nat i + 1))) /\
  exists time average,
    summary = FromColumns
      [("计算时间"%string, [CStr time]);
       ("平均价格"%string, [CStr average]);
       ("价格数量"%string, [CInt (Z.of_nat (List.length (not_none prices)))])].
Proof.
  unfold calculate. destruct (not_none prices) as [| p l]; [discriminate|].
  destruct (calc w env (PyList (p :: l))) as [r w'] eqn:Hc.
  destruct r as [e | rec]; [discriminate|].
  cbn [bind]. unfold ui_format_result. cbv zeta.
  destruct (detail_rows format_number format_float 0 (items rec))
    as [e | rows'] eqn:Hd; [discriminate|].
  cbn [bind ret fst]. intros H. injection H as <- <-.
  apply detail_rows_spec in Hd as [Hl Hn].
  apply calc_inv in Hc as [Hc _].
  apply new_record_inv in Hc as (l' & its & Hp & _ & _ & _ & Hi & Hs & _).
  injection Hp as <-.
  apply price_items_length in Hi.
  assert (Hlen : List.length (items rec) = List.length (p :: l)).
  { rewrite Hs, <- Hi. apply Permutation_length, sort_by_score_perm. }
  split; [congruence|]. split; [exact Hn|].
  eexists. eexists. now rewrite Hlen.
Qed.

Lemma calculate_rows_witness :
  exists summary rows,
    fst (calculate (fun _ _ => ret "5,200.00"%string) (fun _ _ => ""%string)
           (fun _ => ""%string) example_world example_env
           [None; Some (PyInt 5200)])
    = (summary, FromRows rows) /\
    List.length rows = 1%nat.
Proof.
  eexists. eexists. split; [vm_compute; reflexivity|].
  eapply (calculate_rows (fun _ _ => ret "5,200.00"%string)
            (fun _ _ => ""%string) (fun _ => ""%string)
            example_world example_env [None; Some (PyInt 5200)]).
  vm_compute. reflexivity.
Defined.
